(** * gorm-plus: the generic data-access layer of [gplus/dao.go]

    A shallow embedding of the CRUD dispatcher, the condition compiler
    ([buildCondition]), the pagination scope ([paginate]) and the
    primary-key resolver ([getPkColumnName]), together with the part of
    the gorm handle they drive.

    Conventions.
    - Go's [int] is the 64-bit two's-complement integer; it is a [Z] and
      every arithmetic operation wraps explicitly ([gorm.wrap]).
    - A [strings.Builder] is the [string] it holds; [Len() > 0] is a test
      on [String.length].
    - A pointer argument that the callee writes through ([*Query], [*Page])
      is passed in and handed back: the returned value is the pointee after
      the call.
    - The statement executor is a record of outcome functions; every
      finisher method appends the call it issues to a log, so that "the
      data query is never issued" is a statement about the log. *)

From Stdlib Require Import ZArith String Ascii List Lia Bool.
From stdpp Require Import base option gmap strings list fin_maps.

Local Open Scope Z_scope.

(* ===================================================================== *)
(** ** The gorm handle, as far as [dao.go] uses it                        *)
(* ===================================================================== *)

Module gorm.

(** Values of Go's [any] that travel as statement arguments. *)
Inductive Value :=
| VInt (z : Z)
| VStr (s : string)
| VBool (b : bool)
| VNull.

(** [error]: gorm's own sentinel and whatever the driver reports. *)
Inductive Err :=
| ErrRecordNotFound
| ErrDriver (msg : string).

(** A condition handed to [Where] / [Having]: text with positional
    arguments, or a column-to-value map (ANDed equalities). *)
Inductive Condition :=
| Expr (sql : string) (vars : list Value)
| EqMap (m : gmap string Value).

(** [gorm.Statement]: the structural hints accumulated by the chain
    methods.  Conditions are kept in call order; the executor ANDs them. *)
Record Statement := mkStatement {
  HasModel : bool;
  Distinct_ : bool;
  Selects : list string;
  Omits : list string;
  Wheres : list Condition;
  Orders : list string;
  Groups : list string;
  Havings : list Condition;
  Offset_ : option Z;
  Limit_ : option Z;
  RaiseErrorOnNotFound : bool
}.

(** [*gorm.DB]: a statement with the outcome of the last execution. *)
Record DB := mkDB {
  Stmt : Statement;
  Error : option Err;
  RowsAffected : Z
}.

Definition emptyStatement : Statement :=
  mkStatement false false [] [] [] [] [] [] None None false.

Definition with_stmt (f : Statement -> Statement) (db : DB) : DB :=
  mkDB (f (Stmt db)) (Error db) (RowsAffected db).

(** [int] arithmetic: 64 bits, two's complement, silent wrap-around. *)
Definition intSize : Z := 64.
Definition minInt : Z := - 2 ^ (intSize - 1).
Definition maxInt : Z := 2 ^ (intSize - 1) - 1.
Definition wrap (z : Z) : Z := (z - minInt) mod 2 ^ intSize + minInt.
Definition int_sub (a b : Z) : Z := wrap (a - b).
Definition int_mul (a b : Z) : Z := wrap (a * b).
Definition is_int (z : Z) : Prop := minInt <= z <= maxInt.

(** *** Chain methods

    Each returns the handle with its statement extended.  Handles are
    session handles: a chain method works on its own copy of the
    statement, so two chains started from one handle do not interfere. *)

(** [db.Clauses()] with no clause: a fresh instance of the handle. *)
Definition Clauses (db : DB) : DB := db.

(** [db.Model(new(T))]: records that the statement targets [T]'s table. *)
Definition Model (db : DB) : DB :=
  with_stmt (fun s => mkStatement true (Distinct_ s) (Selects s) (Omits s)
    (Wheres s) (Orders s) (Groups s) (Havings s) (Offset_ s) (Limit_ s)
    (RaiseErrorOnNotFound s)) db.

(** [db.Select(columns)] replaces the selected columns. *)
Definition Select (columns : list string) (db : DB) : DB :=
  with_stmt (fun s => mkStatement (HasModel s) (Distinct_ s) columns (Omits s)
    (Wheres s) (Orders s) (Groups s) (Havings s) (Offset_ s) (Limit_ s)
    (RaiseErrorOnNotFound s)) db.

(** [db.Distinct(columns)] sets the flag and selects the columns. *)
Definition Distinct (columns : list string) (db : DB) : DB :=
  Select columns
    (with_stmt (fun s => mkStatement (HasModel s) true (Selects s) (Omits s)
       (Wheres s) (Orders s) (Groups s) (Havings s) (Offset_ s) (Limit_ s)
       (RaiseErrorOnNotFound s)) db).

(** [db.Omit(columns...)]. *)
Definition Omit (columns : list string) (db : DB) : DB :=
  with_stmt (fun s => mkStatement (HasModel s) (Distinct_ s) (Selects s) columns
    (Wheres s) (Orders s) (Groups s) (Havings s) (Offset_ s) (Limit_ s)
    (RaiseErrorOnNotFound s)) db.

(** [db.Where(cond)] adds one condition after those already present.
    This is what gorm does with a map and with every text but one: from
    the empty text without arguments it builds no condition (see
    [WhereString]). *)
Definition Where (c : Condition) (db : DB) : DB :=
  with_stmt (fun s => mkStatement (HasModel s) (Distinct_ s) (Selects s) (Omits s)
    (Wheres s ++ [c]) (Orders s) (Groups s) (Havings s) (Offset_ s) (Limit_ s)
    (RaiseErrorOnNotFound s)) db.

(** [db.Where(text, args...)] for a text that may be empty: gorm builds no
    condition from the empty text without arguments and leaves the
    statement as it is; every other text is added with its arguments. *)
Definition WhereString (sql : string) (vars : list Value) (db : DB) : DB :=
  if String.eqb sql EmptyString && (length vars =? 0)%nat then db
  else Where (Expr sql vars) db.

(** [db.Order(text)]. *)
Definition Order (o : string) (db : DB) : DB :=
  with_stmt (fun s => mkStatement (HasModel s) (Distinct_ s) (Selects s) (Omits s)
    (Wheres s) (Orders s ++ [o]) (Groups s) (Havings s) (Offset_ s) (Limit_ s)
    (RaiseErrorOnNotFound s)) db.

(** [db.Group(text)]. *)
Definition Group (g : string) (db : DB) : DB :=
  with_stmt (fun s => mkStatement (HasModel s) (Distinct_ s) (Selects s) (Omits s)
    (Wheres s) (Orders s) (Groups s ++ [g]) (Havings s) (Offset_ s) (Limit_ s)
    (RaiseErrorOnNotFound s)) db.

(** [db.Having(text, args...)]. *)
Definition Having (c : Condition) (db : DB) : DB :=
  with_stmt (fun s => mkStatement (HasModel s) (Distinct_ s) (Selects s) (Omits s)
    (Wheres s) (Orders s) (Groups s) (Havings s ++ [c]) (Offset_ s) (Limit_ s)
    (RaiseErrorOnNotFound s)) db.

(** [db.Offset(n)]. *)
Definition Offset (n : Z) (db : DB) : DB :=
  with_stmt (fun s => mkStatement (HasModel s) (Distinct_ s) (Selects s) (Omits s)
    (Wheres s) (Orders s) (Groups s) (Havings s) (Some n) (Limit_ s)
    (RaiseErrorOnNotFound s)) db.

(** [db.Limit(n)]. *)
Definition Limit (n : Z) (db : DB) : DB :=
  with_stmt (fun s => mkStatement (HasModel s) (Distinct_ s) (Selects s) (Omits s)
    (Wheres s) (Orders s) (Groups s) (Havings s) (Offset_ s) (Some n)
    (RaiseErrorOnNotFound s)) db.

(** The statement [First] runs: limit 1, and a missing record is an
    error. *)
Definition first_only (db : DB) : DB :=
  with_stmt (fun s => mkStatement (HasModel s) (Distinct_ s) (Selects s) (Omits s)
    (Wheres s) (Orders s) (Groups s) (Havings s) (Offset_ s) (Some 1) true) db.

(** *** Placeholder binding

    The executor reads a condition's text left to right and replaces each
    [?] by the next positional argument. *)
Inductive Token :=
| Lit (c : ascii)
| Bound (v : Value)
| Unbound.

Definition is_placeholder (c : ascii) : bool := Ascii.eqb c "?"%char.

Fixpoint placeholders (s : string) : nat :=
  match s with
  | EmptyString => 0%nat
  | String c r => ((if is_placeholder c then 1 else 0) + placeholders r)%nat
  end.

Fixpoint bind_vars (s : string) (vars : list Value) : list Token :=
  match s with
  | EmptyString => []
  | String c r =>
      if is_placeholder c then
        match vars with
        | [] => Unbound :: bind_vars r []
        | v :: vs => Bound v :: bind_vars r vs
        end
      else Lit c :: bind_vars r vars
  end.

(** *** The statement executor and the finisher methods *)

Section Executor.
Variables T R : Type.

(** What reaches the executor. *)
Inductive Call :=
| CallCount (db : DB)
| CallFind (db : DB)
| CallScan (db : DB)
| CallFindMaps (db : DB)
| CallFirst (db : DB)
| CallCreateInBatches (db : DB) (values : list T) (batchSize : Z).

(** The executor's verdicts.  A query yields the rows it could read and
    possibly an error; a count yields the number and possibly an error;
    a create yields the affected-row count and possibly an error. *)
Record Executor := mkExecutor {
  run_count : DB -> Z * option Err;
  run_find : DB -> list T * option Err;
  run_scan : DB -> list R * option Err;
  run_maps : DB -> list (gmap string Value) * option Err;
  run_create : DB -> list T -> Z -> Z * option Err
}.

(** Computations that talk to the executor: the log is threaded. *)
Definition M (A : Type) : Type := list Call -> A * list Call.

#[global] Instance M_ret : MRet M := fun _ a log => (a, log).
#[global] Instance M_bind : MBind M := fun _ _ f m log =>
  let '(a, log') := m log in f a log'.

Definition issue (c : Call) : M unit := fun log => (tt, log ++ [c]).

Variable exec : Executor.

Definition finished (db : DB) (rows : Z) (e : option Err) : DB :=
  mkDB (Stmt db) e rows.

(** [db.Count(&count)]. *)
Definition Count (db : DB) : M (Z * DB) :=
  _ ← issue (CallCount db);
  let '(n, e) := run_count exec db in
  mret (n, finished db (RowsAffected db) e).

(** [db.Find(&results)] into a slice of [*T]. *)
Definition Find (db : DB) : M (list T * DB) :=
  _ ← issue (CallFind db);
  let '(rows, e) := run_find exec db in
  mret (rows, finished db (Z.of_nat (length rows)) e).

(** [db.Scan(&results)] into a slice of [*R]. *)
Definition Scan (db : DB) : M (list R * DB) :=
  _ ← issue (CallScan db);
  let '(rows, e) := run_scan exec db in
  mret (rows, finished db (Z.of_nat (length rows)) e).

(** [db.Find(&results)] into a slice of maps. *)
Definition FindMaps (db : DB) : M (list (gmap string Value) * DB) :=
  _ ← issue (CallFindMaps db);
  let '(rows, e) := run_maps exec db in
  mret (rows, finished db (Z.of_nat (length rows)) e).

(** [db.First(&entity)]: limit 1, and gorm raises [ErrRecordNotFound]
    when the query read no row and reported no other error.  The
    destination keeps its previous value when no row was read. *)
Definition First (dest : T) (db : DB) : M (T * DB) :=
  let tx := first_only db in
  _ ← issue (CallFirst tx);
  let '(rows, e) := run_find exec tx in
  let rows1 := take 1 rows in
  let affected := Z.of_nat (length rows1) in
  let e' := match e with
            | Some x => Some x
            | None => if (affected =? 0) && RaiseErrorOnNotFound (Stmt tx)
                      then Some ErrRecordNotFound else None
            end in
  mret (default dest (head rows1), finished tx affected e').

(** [db.CreateInBatches(values, batchSize)]. *)
Definition CreateInBatches (values : list T) (batchSize : Z) (db : DB) : M DB :=
  _ ← issue (CallCreateInBatches db values batchSize);
  let '(n, e) := run_create exec db values batchSize in
  mret (finished db n e).
End Executor.

Arguments run_count {T R} e db.
Arguments run_find {T R} e db.
Arguments run_scan {T R} e db.
Arguments run_maps {T R} e db.
Arguments run_create {T R} e db values batchSize.
Arguments CallCount {T} db.
Arguments CallFind {T} db.
Arguments CallScan {T} db.
Arguments CallFindMaps {T} db.
Arguments CallFirst {T} db.
Arguments CallCreateInBatches {T} db values batchSize.
Arguments issue {T} c _.
Arguments Count {T R} exec db _.
Arguments Find {T R} exec db _.
Arguments Scan {T R} exec db _.
Arguments FindMaps {T R} exec db _.
Arguments First {T R} exec dest db _.
Arguments CreateInBatches {T R} exec values batchSize db _.

(** *** The write finishers

    [Create], [Delete] and [Updates] reach the executor as mutations; they
    are logged apart from the calls above. *)

Section Mutations.
Variable T : Type.

(** What reaches the executor from a write. *)
Inductive Mutation :=
| MutCreate (db : DB) (value : T)
| MutDelete (db : DB)
| MutUpdates (db : DB) (value : T)
| MutUpdatesMap (db : DB) (values : gmap string Value).

(** The executor's verdict on a mutation: rows affected and possibly an
    error. *)
Record Mutator := mkMutator {
  run_mutation : Mutation -> Z * option Err
}.

Variable mut : Mutator.

Definition mutate (m : Mutation) (db : DB) (log : list Mutation)
  : DB * list Mutation :=
  let '(n, e) := run_mutation mut m in
  (mkDB (Stmt db) e n, log ++ [m]).

(** [db.Create(value)]. *)
Definition Create (value : T) (db : DB) (log : list Mutation) : DB * list Mutation :=
  mutate (MutCreate db value) db log.

(** [db.Delete(&entity)]. *)
Definition Delete (db : DB) (log : list Mutation) : DB * list Mutation :=
  mutate (MutDelete db) db log.

(** [db.Updates(entity)]. *)
Definition Updates (value : T) (db : DB) (log : list Mutation) : DB * list Mutation :=
  mutate (MutUpdates db value) db log.

(** [db.Updates(&map)]. *)
Definition UpdatesMap (values : gmap string Value) (db : DB) (log : list Mutation)
  : DB * list Mutation :=
  mutate (MutUpdatesMap db values) db log.
End Mutations.

Arguments MutCreate {T} db value.
Arguments MutDelete {T} db.
Arguments MutUpdates {T} db value.
Arguments MutUpdatesMap {T} db values.
Arguments run_mutation {T} m _.
Arguments Create {T} mut value db log.
Arguments Delete {T} mut db log.
Arguments Updates {T} mut value db log.
Arguments UpdatesMap {T} mut values db log.

End gorm.

(* ===================================================================== *)
(** ** Package [gplus]                                                    *)
(* ===================================================================== *)

Module gplus.

(** [var defaultBatchSize = 1000] *)
Definition defaultBatchSize : Z := 1000.

(** [type Page[T any] struct] *)
Record Page (X : Type) := mkPage {
  Current : Z;
  Size : Z;
  Total : Z;
  Records : list X
}.
Arguments mkPage {X} Current Size Total Records.
Arguments Current {X} p.
Arguments Size {X} p.
Arguments Total {X} p.
Arguments Records {X} p.

(** [NewPage] *)
Definition NewPage {X : Type} (current size : Z) : Page X :=
  mkPage current size 0 [].

Definition set_Total {X} (total : Z) (p : Page X) : Page X :=
  mkPage (Current p) (Size p) total (Records p).
Definition set_Records {X} (records : list X) (p : Page X) : Page X :=
  mkPage (Current p) (Size p) (Total p) records.

(** Modelled from the spec: the condition state [Query[T]], whose
    declaration lies outside [dao.go].  The fields are those [dao.go]
    reads and writes, with the spec's data model (root predicate and
    arguments, the two bracket groups, the equality map, the auxiliary
    clauses, the column sets and the update map).  Keys of the maps are
    logical field names. *)
Record Query := mkQuery {
  SelectColumns : list string;
  DistinctColumns : list string;
  QueryBuilder : string;
  QueryArgs : list gorm.Value;
  AndBracketBuilder : string;
  AndBracketArgs : list gorm.Value;
  OrBracketBuilder : string;
  OrBracketArgs : list gorm.Value;
  OrderBuilder : string;
  GroupBuilder : string;
  HavingBuilder : string;
  HavingArgs : list gorm.Value;
  UpdateMap : gmap string gorm.Value;
  ConditionMap : gmap string gorm.Value
}.

Definition emptyQuery : Query :=
  mkQuery [] [] EmptyString [] EmptyString [] EmptyString [] EmptyString EmptyString EmptyString [] ∅ ∅.

(** Modelled from the spec: the per-call [Option] struct (an optional
    override of the executor handle and the optional [selects] / [omits]
    field-name lists), declared outside [dao.go]. *)
Record Option := mkOption {
  Db : option gorm.DB;
  Selects : list string;
  Omits : list string
}.

(** [OptionFunc]: a function that fills in an [Option]. *)
Definition OptionFunc : Type := Option -> Option.

(** [reflect.StructField], with the [gorm] tag already parsed by
    [schema.ParseTagSetting]: keys are upper-cased, a key without a value
    maps to itself, [key:] maps to the empty string. *)
Record StructField := mkField {
  Name : string;
  TagSetting : gmap string string
}.

Definition lower (c : ascii) : ascii :=
  let n := nat_of_ascii c in
  if ((65 <=? n) && (n <=? 90))%nat then ascii_of_nat (n + 32) else c.

Fixpoint ToLower (s : string) : string :=
  match s with
  | EmptyString => EmptyString
  | String c r => String (lower c) (ToLower r)
  end.

(** A text with every rune replaced by the ASCII lower-case letter of its
    case-folding class when there is one: the ASCII capitals, the long s
    (U+017F, bytes 197 191) for [s] and the Kelvin sign (U+212A, bytes
    226 132 170) for [k]; every other byte is kept. *)
Fixpoint foldCase (s : string) : string :=
  match s with
  | EmptyString => EmptyString
  | String c r =>
      match r with
      | EmptyString => String (lower c) EmptyString
      | String c2 r2 =>
          if ((nat_of_ascii c =? 197) && (nat_of_ascii c2 =? 191))%nat
          then String "s" (foldCase r2)
          else
            match r2 with
            | EmptyString => String (lower c) (foldCase r)
            | String c3 r3 =>
                if ((nat_of_ascii c =? 226) && (nat_of_ascii c2 =? 132)
                    && (nat_of_ascii c3 =? 170))%nat
                then String "k" (foldCase r3)
                else String (lower c) (foldCase r)
            end
      end
  end.

(** [strings.EqualFold] (equality under Unicode simple case folding) when
    one of the two texts is ASCII, as in [CheckTruth]: the only runes
    outside ASCII that fold to an ASCII letter are the long s and the
    Kelvin sign. *)
Definition EqualFold (a b : string) : bool := String.eqb (foldCase a) (foldCase b).

(** [utils.CheckTruth]: some value is neither empty nor [false]. *)
Fixpoint CheckTruth (vals : list string) : bool :=
  match vals with
  | [] => false
  | val :: rest =>
      if negb (String.eqb val EmptyString) && negb (EqualFold val "false") then true
      else CheckTruth rest
  end.

(** Indexing a Go map: the zero value when the key is absent. *)
Definition index (m : gmap string string) (k : string) : string :=
  default EmptyString (m !! k).

(** [isPrimaryKey := utils.CheckTruth(tagSetting["PRIMARYKEY"], tagSetting["PRIMARY_KEY"])] *)
Definition isPrimaryKey (tagSetting : gmap string string) : bool :=
  CheckTruth [index tagSetting "PRIMARYKEY"; index tagSetting "PRIMARY_KEY"].

(** The locals captured by the closure that [paginate] returns. *)
Record paginateEnv := mkEnv {
  page : Z;
  pageSize : Z
}.

(** [paginate]: the two reads of the descriptor, at closure creation. *)
Definition paginate {X : Type} (p : Page X) : paginateEnv :=
  mkEnv (Current p) (Size p).

(** The body of the closure: it assigns to its captured locals and
    returns the handle with offset and limit set. *)
Definition paginate_func (env : paginateEnv) (db : gorm.DB) : paginateEnv * gorm.DB :=
  let page := if page env <=? 0 then 1 else page env in
  let pageSize := if pageSize env <=? 0 then 10 else pageSize env in
  let offset := gorm.int_mul (gorm.int_sub page 1) pageSize in
  (mkEnv page pageSize, gorm.Limit pageSize (gorm.Offset offset db)).

(** [db.Scopes(f)]: the scope is run on the handle before the query. *)
Definition Scopes (env : paginateEnv) (db : gorm.DB) : gorm.DB :=
  snd (paginate_func env db).

(** [for _, m := range results { ... &m ... }]: what the collected
    addresses point to once the loop is over.  With one variable per
    iteration each address keeps its element; with one variable for the
    whole loop every address is that of the same variable, which holds
    the last element. *)
Definition range_addrs {X : Type} (perIteration : bool) (xs : list X) : list X :=
  if perIteration then xs
  else match last xs with
       | Some x => replicate (length xs) x
       | None => []
       end.

(** *** Notions used to state the properties *)

(** The arguments a bracket group contributes to a compilation. *)
Definition bracketArgs (builder : string) (args : list gorm.Value) : list gorm.Value :=
  if (0 <? String.length builder)%nat then args else [].

(** The values bound by a binding, left to right. *)
Fixpoint bound_values (toks : list gorm.Token) : list gorm.Value :=
  match toks with
  | [] => []
  | gorm.Bound v :: r => v :: bound_values r
  | _ :: r => bound_values r
  end.

(** What a compilation writes back into the builder. *)
Definition compiledQuery (q : Query) : Query :=
  if (0 <? String.length (QueryBuilder q))%nat then
    mkQuery (SelectColumns q) (DistinctColumns q)
      (QueryBuilder q +:+ AndBracketBuilder q +:+ OrBracketBuilder q)
      (QueryArgs q ++ bracketArgs (AndBracketBuilder q) (AndBracketArgs q)
                   ++ bracketArgs (OrBracketBuilder q) (OrBracketArgs q))
      (AndBracketBuilder q) (AndBracketArgs q)
      (OrBracketBuilder q) (OrBracketArgs q)
      (OrderBuilder q) (GroupBuilder q)
      (HavingBuilder q) (HavingArgs q) (UpdateMap q) (ConditionMap q)
  else q.

(** [n] copies of a text, one after the other. *)
Fixpoint repeat_string (n : nat) (s : string) : string :=
  match n with
  | O => EmptyString
  | S k => s +:+ repeat_string k s
  end.

(** [n] copies of an argument list, one after the other. *)
Fixpoint repeat_args (n : nat) (args : list gorm.Value) : list gorm.Value :=
  match n with
  | O => []
  | S k => args ++ repeat_args k args
  end.

(** The descriptor with another current page. *)
Definition set_Current {X} (current : Z) (p : Page X) : Page X :=
  mkPage current (Size p) (Total p) (Records p).

(** *** Concrete data used to exercise the definitions *)

(** A handle with an empty statement and no outcome yet. *)
Definition blankDb : gorm.DB := gorm.mkDB gorm.emptyStatement None 0.

(** An executor over an empty table: counts are zero, queries read no
    row, creates affect as many rows as they are given. *)
Definition emptyTable : gorm.Executor unit unit :=
  gorm.mkExecutor unit unit
    (fun _ => (0, None))
    (fun _ => ([], None))
    (fun _ => ([], None))
    (fun _ => ([], None))
    (fun _ values _ => (Z.of_nat (length values), None)).

(** An executor whose connection is down for counts, and that would
    return three rows to any query. *)
Definition countFails : gorm.Executor unit unit :=
  gorm.mkExecutor unit unit
    (fun _ => (0, Some (gorm.ErrDriver "connection refused")))
    (fun _ => ([tt; tt; tt], None))
    (fun _ => ([tt; tt; tt], None))
    (fun _ => ([∅; ∅; ∅], None))
    (fun _ _ _ => (0, Some (gorm.ErrDriver "connection refused"))).

(** An executor over a table of 25 rows that returns three of them. *)
Definition threeRows : gorm.Executor unit unit :=
  gorm.mkExecutor unit unit
    (fun _ => (25, None))
    (fun _ => ([tt; tt; tt], None))
    (fun _ => ([tt; tt; tt], None))
    (fun _ => ([∅; ∅; ∅], None))
    (fun _ values _ => (Z.of_nat (length values), None)).

(** Root term [status = ?], an AND-group on [city] and [zip], an OR-group
    on [vip], as the fluent calls leave them in the builders. *)
Definition groupedQuery : Query :=
  mkQuery [] []
    "status = ? " [gorm.VInt 1]
    "AND (city = ? AND zip = ? ) " [gorm.VStr "NY"; gorm.VStr "10001"]
    "OR (vip = ? ) " [gorm.VBool true]
    EmptyString EmptyString EmptyString [] ∅ ∅.

(** Only an AND-group: the root predicate is empty. *)
Definition groupOnlyQuery : Query :=
  mkQuery [] []
    EmptyString []
    "AND (city = ? ) " [gorm.VStr "NY"]
    EmptyString []
    EmptyString EmptyString EmptyString [] ∅ ∅.

(** [gorm:"primaryKey;column:user_id"] *)
Definition namedPkField : StructField :=
  mkField "Uid" {[ "PRIMARYKEY" := "PRIMARYKEY"; "COLUMN" := "user_id" ]}.

(** [gorm:"primaryKey;column:"]: the column name is given, and empty. *)
Definition emptyNamedPkField : StructField :=
  mkField "ID" {[ "PRIMARYKEY" := "PRIMARYKEY"; "COLUMN" := EmptyString ]}.

(** A field without a tag. *)
Definition plainField : StructField := mkField "Name" ∅.

(** A naming strategy for the examples: lower-cased identifier. *)
Definition lowerNaming (table column : string) : string := ToLower column.

(** A mutator that reports three affected rows for every write. *)
Definition threeAffected : gorm.Mutator unit :=
  gorm.mkMutator unit (fun _ => (3, None)).

(** Root term [status = ?] and an equality map on two logical fields. *)
Definition mappedQuery : Query :=
  mkQuery [] []
    "status = ? " [gorm.VInt 1]
    EmptyString [] EmptyString []
    EmptyString EmptyString EmptyString []
    ∅ {[ "Name" := gorm.VStr "Tom"; "Age" := gorm.VInt 30 ]}.

(** The root term of [groupedQuery] alone. *)
Definition rootOnlyQuery : Query :=
  mkQuery [] []
    "status = ? " [gorm.VInt 1]
    EmptyString [] EmptyString []
    EmptyString EmptyString EmptyString [] ∅ ∅.

(** An executor over a table of numbers that returns 7, 8 and 9. *)
Definition numberedRows : gorm.Executor Z unit :=
  gorm.mkExecutor Z unit
    (fun _ => (3, None))
    (fun _ => ([7; 8; 9], None))
    (fun _ => ([], None))
    (fun _ => ([], None))
    (fun _ values _ => (Z.of_nat (length values), None)).

Section Dao.
(** The record type and the projection type of the generic operations. *)
Variables T R : Type.
(** The zero value of [T] ([var entity T]). *)
Variable zeroT : T.
(** The statement executor behind every handle. *)
Variable exec : gorm.Executor T R.
(** [var globalDb *gorm.DB], after [Init]. *)
Variable globalDb : gorm.DB.
(** [getColumnName], declared outside [dao.go]: the column-name resolver
    from a logical field to its physical column. *)
Variable getColumnName : string -> string.
(** [constants.DefaultPrimaryName], declared outside [dao.go]. *)
Variable DefaultPrimaryName : string.
(** [schema.NamingStrategy{}.ColumnName(table, column)]. *)
Variable ColumnName : string -> string -> string.
(** Whether the language version gives [range] one variable per
    iteration. *)
Variable perIteration : bool.

Local Abbreviation M := (gorm.M T).

(** [setSelectIfNeed] *)
Definition setSelectIfNeed (config : Option) (db : gorm.DB) : gorm.DB :=
  if (0 <? length (Selects config))%nat then
    let columnNames := map getColumnName (Selects config) in
    gorm.Select columnNames db
  else db.

(** [setOmitIfNeed] *)
Definition setOmitIfNeed (config : Option) (db : gorm.DB) : gorm.DB :=
  if (0 <? length (Omits config))%nat then
    let columnNames := map getColumnName (Omits config) in
    gorm.Omit columnNames db
  else db.

(** [getDb] *)
Definition getDb (opts : list OptionFunc) : gorm.DB :=
  let config := fold_left (fun config op => op config) opts (mkOption None [] []) in
  let db := gorm.Clauses globalDb in
  let db := match Db config with
            | Some d => gorm.Clauses d
            | None => db
            end in
  let db := setOmitIfNeed config db in
  let db := setSelectIfNeed config db in
  db.

(** The [condMap] loop of [buildCondition]: every entry of the equality
    map re-keyed by its column name. *)
Definition resolveConditionMap (m : gmap string gorm.Value) : gmap string gorm.Value :=
  list_to_map (map (fun kv => (getColumnName kv.1, kv.2)) (map_to_list m)).

(** [buildCondition].  The builder is written through the pointer, so it
    is returned next to the handle. *)
Definition buildCondition (q : option Query) (opts : list OptionFunc)
  : option Query * gorm.DB :=
  let db := getDb opts in
  let resultDb := gorm.Model db in
  match q with
  | None => (None, resultDb)
  | Some q =>
    let resultDb :=
      if (0 <? length (DistinctColumns q))%nat
      then gorm.Distinct (DistinctColumns q) resultDb else resultDb in
    let resultDb :=
      if (0 <? length (SelectColumns q))%nat
      then gorm.Select (SelectColumns q) resultDb else resultDb in
    let '(q, resultDb) :=
      if (0 <? String.length (QueryBuilder q))%nat then
        let q :=
          if (0 <? String.length (AndBracketBuilder q))%nat then
            mkQuery (SelectColumns q) (DistinctColumns q)
              (QueryBuilder q +:+ AndBracketBuilder q)
              (QueryArgs q ++ AndBracketArgs q)
              (AndBracketBuilder q) (AndBracketArgs q)
              (OrBracketBuilder q) (OrBracketArgs q)
              (OrderBuilder q) (GroupBuilder q)
              (HavingBuilder q) (HavingArgs q) (UpdateMap q) (ConditionMap q)
          else q in
        let q :=
          if (0 <? String.length (OrBracketBuilder q))%nat then
            mkQuery (SelectColumns q) (DistinctColumns q)
              (QueryBuilder q +:+ OrBracketBuilder q)
              (QueryArgs q ++ OrBracketArgs q)
              (AndBracketBuilder q) (AndBracketArgs q)
              (OrBracketBuilder q) (OrBracketArgs q)
              (OrderBuilder q) (GroupBuilder q)
              (HavingBuilder q) (HavingArgs q) (UpdateMap q) (ConditionMap q)
          else q in
        (q, gorm.Where (gorm.Expr (QueryBuilder q) (QueryArgs q)) resultDb)
      else (q, resultDb) in
    let resultDb :=
      if (0 <? size (ConditionMap q))%nat then
        let condMap := resolveConditionMap (ConditionMap q) in
        gorm.Where (gorm.EqMap condMap) resultDb
      else resultDb in
    let resultDb :=
      if (0 <? String.length (OrderBuilder q))%nat
      then gorm.Order (OrderBuilder q) resultDb else resultDb in
    let resultDb :=
      if (0 <? String.length (GroupBuilder q))%nat
      then gorm.Group (GroupBuilder q) resultDb else resultDb in
    let resultDb :=
      if (0 <? String.length (HavingBuilder q))%nat
      then gorm.Having (gorm.Expr (HavingBuilder q) (HavingArgs q)) resultDb
      else resultDb in
    (Some q, resultDb)
  end.

(** [InsertBatch] *)
Definition InsertBatch (entities : list T) (opts : list OptionFunc) : M gorm.DB :=
  let db := getDb opts in
  if (length entities =? 0)%nat then mret db
  else gorm.CreateInBatches exec entities defaultBatchSize db.

(** [InsertBatchSize] *)
Definition InsertBatchSize (entities : list T) (batchSize : Z)
    (opts : list OptionFunc) : M gorm.DB :=
  let db := getDb opts in
  if (length entities =? 0)%nat then mret db
  else
    let batchSize := if batchSize <=? 0 then defaultBatchSize else batchSize in
    gorm.CreateInBatches exec entities batchSize db.

(** [SelectOne] *)
Definition SelectOne (q : option Query) (opts : list OptionFunc)
  : M (T * gorm.DB * option Query) :=
  let entity := zeroT in
  let '(q, resultDb) := buildCondition q opts in
  '(entity, resultDb) ← gorm.First exec entity resultDb;
  mret (entity, resultDb, q).

(** [Exists] *)
Definition Exists (q : option Query) (opts : list OptionFunc)
  : M (bool * option gorm.Err * option Query) :=
  '(_, dbRes, q) ← SelectOne q opts;
  mret (0 <? gorm.RowsAffected dbRes, gorm.Error dbRes, q).

(** [SelectList] *)
Definition SelectList (q : option Query) (opts : list OptionFunc)
  : M (list T * gorm.DB * option Query) :=
  let '(q, resultDb) := buildCondition q opts in
  '(results, resultDb) ← gorm.Find exec resultDb;
  mret (results, resultDb, q).

(** [SelectCount] *)
Definition SelectCount (q : option Query) (opts : list OptionFunc)
  : M (Z * gorm.DB * option Query) :=
  let '(q, resultDb) := buildCondition q opts in
  '(count, resultDb) ← gorm.Count exec resultDb;
  mret (count, resultDb, q).

(** [SelectPage] *)
Definition SelectPage (page : Page T) (q : option Query) (opts : list OptionFunc)
  : M (Page T * gorm.DB * option Query) :=
  '(total, countDb, q) ← SelectCount q opts;
  match gorm.Error countDb with
  | Some _ => mret (page, countDb, q)
  | None =>
    let page := set_Total total page in
    let '(q, resultDb) := buildCondition q opts in
    '(results, resultDb) ← gorm.Find exec (Scopes (paginate page) resultDb);
    let page := set_Records results page in
    mret (page, resultDb, q)
  end.

(** [SelectPageModel] *)
Definition SelectPageModel (page : Page R) (q : option Query) (opts : list OptionFunc)
  : M (Page R * gorm.DB * option Query) :=
  '(total, countDb, q) ← SelectCount q opts;
  match gorm.Error countDb with
  | Some _ => mret (page, countDb, q)
  | None =>
    let page := set_Total total page in
    let '(q, resultDb) := buildCondition q opts in
    '(results, resultDb) ← gorm.Scan exec (Scopes (paginate page) resultDb);
    let page := set_Records results page in
    mret (page, resultDb, q)
  end.

(** [SelectPageMaps] *)
Definition SelectPageMaps (page : Page (gmap string gorm.Value)) (q : option Query)
    (opts : list OptionFunc)
  : M (Page (gmap string gorm.Value) * gorm.DB * option Query) :=
  '(total, countDb, q) ← SelectCount q opts;
  match gorm.Error countDb with
  | Some _ => mret (page, countDb, q)
  | None =>
    let page := set_Total total page in
    let '(q, resultDb) := buildCondition q opts in
    '(results, resultDb) ← gorm.FindMaps exec (Scopes (paginate page) resultDb);
    let page := set_Records (Records page ++ range_addrs perIteration results) page in
    mret (page, resultDb, q)
  end.

(** The loop of [getPkColumnName]: the value of [columnName] when the
    loop is left. *)
Fixpoint pkColumnLoop (fields : list StructField) : string :=
  match fields with
  | [] => EmptyString
  | field :: rest =>
      let tagSetting := TagSetting field in
      if isPrimaryKey tagSetting then
        match tagSetting !! "COLUMN" with
        | Some name => name
        | None => ColumnName EmptyString (Name field)
        end
      else pkColumnLoop rest
  end.

(** [getPkColumnName], on the fields of [T] in declaration order. *)
Definition getPkColumnName (entityType : list StructField) : string :=
  let columnName := pkColumnLoop entityType in
  if String.eqb columnName EmptyString then DefaultPrimaryName else columnName.

(** *** The remaining operations of [dao.go] *)

(** The executor for writes. *)
Variable mut : gorm.Mutator T.

(** [SelectListModel] *)
Definition SelectListModel (q : option Query) (opts : list OptionFunc)
  : M (list R * gorm.DB * option Query) :=
  let '(q, resultDb) := buildCondition q opts in
  '(results, resultDb) ← gorm.Scan exec resultDb;
  mret (results, resultDb, q).

(** [SelectListByMap] *)
Definition SelectListByMap (q : option Query) (opts : list OptionFunc)
  : M (list T * gorm.DB * option Query) :=
  let '(q, resultDb) := buildCondition q opts in
  '(results, resultDb) ← gorm.Find exec resultDb;
  mret (results, resultDb, q).

(** [SelectListMaps] *)
Definition SelectListMaps (q : option Query) (opts : list OptionFunc)
  : M (list (gmap string gorm.Value) * gorm.DB * option Query) :=
  let '(q, resultDb) := buildCondition q opts in
  '(results, resultDb) ← gorm.FindMaps exec resultDb;
  mret (results, resultDb, q).

(** [Insert] *)
Definition Insert (entity : T) (opts : list OptionFunc)
    (log : list (gorm.Mutation T)) : gorm.DB * list (gorm.Mutation T) :=
  let db := getDb opts in
  gorm.Create mut entity db log.

(** [DeleteById], with the fields of [T] for [getPkColumnName]. *)
Definition DeleteById (entityType : list StructField) (id : gorm.Value)
    (opts : list OptionFunc) (log : list (gorm.Mutation T))
  : gorm.DB * list (gorm.Mutation T) :=
  let db := getDb opts in
  gorm.Delete mut (gorm.Where (gorm.Expr (getPkColumnName entityType) [id]) db) log.

(** [Delete].  The builder is dereferenced without a nil test: a nil
    builder panics ([None]) after [getDb] and before any call to the
    executor. *)
Definition Delete (q : option Query) (opts : list OptionFunc)
    (log : list (gorm.Mutation T)) : option (gorm.DB * list (gorm.Mutation T)) :=
  let db := getDb opts in
  match q with
  | None => None
  | Some q =>
      Some (gorm.Delete mut
              (gorm.WhereString (QueryBuilder q) (QueryArgs q) db) log)
  end.

(** [UpdateById] *)
Definition UpdateById (entity : T) (opts : list OptionFunc)
    (log : list (gorm.Mutation T)) : gorm.DB * list (gorm.Mutation T) :=
  let db := getDb opts in
  gorm.Updates mut entity (gorm.Model db) log.

(** [Update].  As [Delete], a nil builder panics. *)
Definition Update (q : option Query) (opts : list OptionFunc)
    (log : list (gorm.Mutation T)) : option (gorm.DB * list (gorm.Mutation T)) :=
  let db := getDb opts in
  match q with
  | None => None
  | Some q =>
      Some (gorm.UpdatesMap mut (UpdateMap q)
              (gorm.WhereString (QueryBuilder q) (QueryArgs q) (gorm.Model db))
              log)
  end.

(** The builder after [n] compilations with the same options. *)
Fixpoint compileTimes (n : nat) (q : option Query) (opts : list OptionFunc)
  : option Query :=
  match n with
  | O => q
  | S k => fst (buildCondition (compileTimes k q opts) opts)
  end.


(* =================================================================== *)
(** ** Properties                                                      *)
(* =================================================================== *)

(** *** Strings and placeholders *)

Lemma append_cons (c : ascii) (a b : string) :
  String c a +:+ b = String c (a +:+ b).
Proof. reflexivity. Qed.

Lemma append_empty_l (s : string) : EmptyString +:+ s = s.
Proof. reflexivity. Qed.

Lemma append_empty_r (s : string) : s +:+ EmptyString = s.
Proof.
  induction s as [|c s IH]; [reflexivity |].
  rewrite append_cons. now rewrite IH.
Qed.

Lemma append_assoc (a b c : string) : (a +:+ b) +:+ c = a +:+ (b +:+ c).
Proof.
  induction a as [|x a IH]; [reflexivity |].
  rewrite !append_cons. now rewrite IH.
Qed.

Lemma length_zero_empty (s : string) : String.length s = 0%nat -> s = EmptyString.
Proof. destruct s; simpl; [reflexivity | discriminate]. Qed.

Lemma ltb_length_false (s : string) :
  (0 <? String.length s)%nat = false -> s = EmptyString.
Proof. intros H. apply length_zero_empty. apply Nat.ltb_ge in H. lia. Qed.

Lemma placeholders_append (a b : string) :
  gorm.placeholders (a +:+ b) = (gorm.placeholders a + gorm.placeholders b)%nat.
Proof.
  induction a as [|c a IH]; [reflexivity |].
  rewrite append_cons. simpl. rewrite IH. lia.
Qed.

(** Binding distributes over concatenation once the first part has the
    arguments of its own placeholders. *)
Lemma bind_vars_append (a b : string) :
  forall va vb : list gorm.Value,
    gorm.placeholders a = length va ->
    gorm.bind_vars (a +:+ b) (va ++ vb) = gorm.bind_vars a va ++ gorm.bind_vars b vb.
Proof.
  induction a as [|c a IH]; intros va vb Hn.
  - destruct va; [reflexivity | discriminate].
  - rewrite append_cons. simpl in *.
    destruct (gorm.is_placeholder c).
    + destruct va as [|v va]; [discriminate |].
      simpl. f_equal. apply IH. simpl in Hn. lia.
    + simpl. f_equal. apply IH. exact Hn.
Qed.

Lemma bound_values_bind (s : string) :
  forall vars : list gorm.Value,
    gorm.placeholders s = length vars ->
    bound_values (gorm.bind_vars s vars) = vars /\
    ~ In gorm.Unbound (gorm.bind_vars s vars).
Proof.
  induction s as [|c s IH]; intros vars Hn; simpl in *.
  - destruct vars; [split; [reflexivity | intros []] | discriminate].
  - destruct (gorm.is_placeholder c).
    + destruct vars as [|v vars]; [discriminate |].
      simpl in Hn. destruct (IH vars) as [Hb Hu]; [lia |].
      simpl. split; [now rewrite Hb |].
      intros [Hd | Hi]; [discriminate | exact (Hu Hi)].
    + destruct (IH vars Hn) as [Hb Hu].
      simpl. split; [exact Hb |].
      intros [Hd | Hi]; [discriminate | exact (Hu Hi)].
Qed.

(** *** The conditions [buildCondition] adds *)

Lemma query_eta (q : Query) :
  mkQuery (SelectColumns q) (DistinctColumns q) (QueryBuilder q) (QueryArgs q)
    (AndBracketBuilder q) (AndBracketArgs q) (OrBracketBuilder q) (OrBracketArgs q)
    (OrderBuilder q) (GroupBuilder q) (HavingBuilder q) (HavingArgs q)
    (UpdateMap q) (ConditionMap q) = q.
Proof. destruct q; reflexivity. Qed.

Ltac empty_groups :=
  repeat match goal with
         | H : (0 <? String.length ?s)%nat = false |- _ =>
             apply ltb_length_false in H; subst s
         end.

Ltac split_ifs :=
  repeat (match goal with
          | |- context [if ?b then _ else _] => destruct b eqn:?
          end; simpl).

Lemma buildCondition_query (q : Query) (opts : list OptionFunc) :
  fst (buildCondition (Some q) opts) = Some (compiledQuery q).
Proof.
  unfold buildCondition, compiledQuery, bracketArgs.
  destruct q as [sc dc root args andB andA orB orA ob gb hb ha um cm]; simpl.
  destruct (0 <? String.length root)%nat eqn:Hroot; simpl; [| reflexivity].
  destruct (0 <? String.length andB)%nat eqn:Hand; simpl;
    destruct (0 <? String.length orB)%nat eqn:Hor; simpl;
    empty_groups;
    rewrite ?append_empty_l, ?append_empty_r, ?app_nil_r, ?append_assoc,
      <- ?app_assoc; reflexivity.
Qed.

Lemma buildCondition_Wheres (q : Query) (opts : list OptionFunc) :
  gorm.Wheres (gorm.Stmt (snd (buildCondition (Some q) opts))) =
    gorm.Wheres (gorm.Stmt (getDb opts))
    ++ (if (0 <? String.length (QueryBuilder q))%nat
        then [gorm.Expr (QueryBuilder (compiledQuery q)) (QueryArgs (compiledQuery q))]
        else [])
    ++ (if (0 <? size (ConditionMap q))%nat
        then [gorm.EqMap (resolveConditionMap (ConditionMap q))]
        else []).
Proof.
  unfold buildCondition, compiledQuery, bracketArgs.
  destruct q as [sc dc root args andB andA orB orA ob gb hb ha um cm]; simpl.
  destruct (0 <? String.length root)%nat eqn:Hroot; simpl.
  - destruct (0 <? String.length andB)%nat eqn:Hand; simpl;
      destruct (0 <? String.length orB)%nat eqn:Hor; simpl;
      empty_groups;
      rewrite ?append_empty_l, ?append_empty_r, ?app_nil_r, ?append_assoc,
        <- ?app_assoc;
      split_ifs; rewrite <- ?app_assoc, ?app_nil_r; reflexivity.
  - split_ifs; rewrite ?app_nil_r; reflexivity.
Qed.

Lemma buildCondition_Havings (q : Query) (opts : list OptionFunc) :
  gorm.Havings (gorm.Stmt (snd (buildCondition (Some q) opts))) =
    gorm.Havings (gorm.Stmt (getDb opts))
    ++ (if (0 <? String.length (HavingBuilder q))%nat
        then [gorm.Expr (HavingBuilder q) (HavingArgs q)]
        else []).
Proof.
  unfold buildCondition.
  destruct q as [sc dc root args andB andA orB orA ob gb hb ha um cm]; simpl.
  destruct (0 <? String.length root)%nat; simpl;
    [destruct (0 <? String.length andB)%nat; simpl;
     destruct (0 <? String.length orB)%nat; simpl |];
    split_ifs; rewrite ?app_nil_r; reflexivity.
Qed.

(** *** The column-resolved equality map *)

Lemma resolveConditionMap_origin (m : gmap string gorm.Value) (c : string) (v : gorm.Value) :
  resolveConditionMap m !! c = Some v ->
  exists k, getColumnName k = c /\ m !! k = Some v.
Proof.
  unfold resolveConditionMap. intros H.
  apply elem_of_list_to_map_2 in H.
  apply list_elem_of_In, in_map_iff in H.
  destruct H as [[k v'] [Heq Hin]]. simpl in Heq. inversion Heq; subst.
  exists k. split; [reflexivity |].
  apply elem_of_map_to_list. now apply list_elem_of_In.
Qed.

Lemma resolveConditionMap_covers (m : gmap string gorm.Value) (k : string) (v : gorm.Value) :
  m !! k = Some v ->
  is_Some (resolveConditionMap m !! getColumnName k).
Proof.
  unfold resolveConditionMap. intros H.
  apply not_eq_None_Some. intros Hnone.
  apply not_elem_of_list_to_map_2 in Hnone. apply Hnone.
  apply list_elem_of_fmap. exists (getColumnName k, v). split; [reflexivity |].
  apply list_elem_of_In, in_map_iff. exists (k, v). split; [reflexivity |].
  apply list_elem_of_In. now apply elem_of_map_to_list.
Qed.

(* =================================================================== *)
(** ** The compile operation                                           *)
(* =================================================================== *)

(** C1 (amended).  For every builder whose root predicate is non-empty,
    [buildCondition] adds to the handle's conditions, in this order:
    one textual condition made of the root text, then the AND-group
    text, then the OR-group text, with the root arguments followed by
    the AND-group arguments and then the OR-group arguments (a group
    that is non-empty contributes all its arguments); and after it, when
    the equality map is non-empty, the equality map re-keyed by column
    name, every entry of which comes from an entry of the builder's map
    and every entry of the builder's map having its column present.
    For every builder whose root predicate is empty, no textual
    condition is added, whatever the bracket groups hold: the only
    condition added is the re-keyed equality map, when it is non-empty,
    and the builder is given back as it was, its groups not compiled
    into the root. *)
Theorem buildCondition_fixed_order (q : Query) (opts : list OptionFunc) :
  ((0 < String.length (QueryBuilder q))%nat ->
   gorm.Wheres (gorm.Stmt (snd (buildCondition (Some q) opts))) =
     gorm.Wheres (gorm.Stmt (getDb opts))
     ++ [gorm.Expr
           (QueryBuilder q +:+ AndBracketBuilder q +:+ OrBracketBuilder q)
           (QueryArgs q ++ bracketArgs (AndBracketBuilder q) (AndBracketArgs q)
                        ++ bracketArgs (OrBracketBuilder q) (OrBracketArgs q))]
     ++ (if (0 <? size (ConditionMap q))%nat
         then [gorm.EqMap (resolveConditionMap (ConditionMap q))]
         else [])
   /\ ((0 < String.length (AndBracketBuilder q))%nat ->
       bracketArgs (AndBracketBuilder q) (AndBracketArgs q) = AndBracketArgs q)
   /\ ((0 < String.length (OrBracketBuilder q))%nat ->
       bracketArgs (OrBracketBuilder q) (OrBracketArgs q) = OrBracketArgs q)
   /\ (forall c v, resolveConditionMap (ConditionMap q) !! c = Some v ->
         exists k, getColumnName k = c /\ ConditionMap q !! k = Some v)
   /\ (forall k v, ConditionMap q !! k = Some v ->
         is_Some (resolveConditionMap (ConditionMap q) !! getColumnName k)))
  /\ (QueryBuilder q = EmptyString ->
      gorm.Wheres (gorm.Stmt (snd (buildCondition (Some q) opts))) =
        gorm.Wheres (gorm.Stmt (getDb opts))
        ++ (if (0 <? size (ConditionMap q))%nat
            then [gorm.EqMap (resolveConditionMap (ConditionMap q))]
            else [])
      /\ (forall sql vars,
            ~ gorm.Expr sql vars
              ∈ drop (length (gorm.Wheres (gorm.Stmt (getDb opts))))
                     (gorm.Wheres (gorm.Stmt (snd (buildCondition (Some q) opts)))))
      /\ fst (buildCondition (Some q) opts) = Some q).
Proof.
  split.
  - intros Hroot. apply Nat.ltb_lt in Hroot.
    split; [| split; [| split; [| split]]].
    + rewrite buildCondition_Wheres. unfold compiledQuery. rewrite Hroot.
      reflexivity.
    + intros H. apply Nat.ltb_lt in H. unfold bracketArgs. now rewrite H.
    + intros H. apply Nat.ltb_lt in H. unfold bracketArgs. now rewrite H.
    + intros c v. apply resolveConditionMap_origin.
    + intros k v. apply resolveConditionMap_covers.
  - intros Hempty.
    assert (Hroot : (0 <? String.length (QueryBuilder q))%nat = false)
      by now rewrite Hempty.
    assert (Hw : gorm.Wheres (gorm.Stmt (snd (buildCondition (Some q) opts))) =
                 gorm.Wheres (gorm.Stmt (getDb opts))
                 ++ (if (0 <? size (ConditionMap q))%nat
                     then [gorm.EqMap (resolveConditionMap (ConditionMap q))]
                     else [])).
    { rewrite buildCondition_Wheres, Hroot. reflexivity. }
    split; [exact Hw |]. split.
    + intros sql vars Hin. rewrite Hw, drop_app_length in Hin.
      destruct (0 <? size (ConditionMap q))%nat.
      * apply list_elem_of_singleton in Hin. discriminate.
      * now apply elem_of_nil in Hin.
    + rewrite buildCondition_query. unfold compiledQuery. now rewrite Hroot.
Qed.

(** C2.  When the root, the AND-group, the OR-group and the having
    component each hold as many arguments as placeholders, every textual
    condition that [buildCondition] adds (WHERE and HAVING) has as many
    arguments as placeholders; binding them left to right leaves no
    placeholder unbound and consumes the arguments in order; and in the
    WHERE text every placeholder receives the argument it was paired
    with in its own component. *)
Theorem buildCondition_placeholders (q : Query) (opts : list OptionFunc) :
  gorm.placeholders (QueryBuilder q) = length (QueryArgs q) ->
  gorm.placeholders (AndBracketBuilder q) = length (AndBracketArgs q) ->
  gorm.placeholders (OrBracketBuilder q) = length (OrBracketArgs q) ->
  gorm.placeholders (HavingBuilder q) = length (HavingArgs q) ->
  let base := gorm.Stmt (getDb opts) in
  let compiled := gorm.Stmt (snd (buildCondition (Some q) opts)) in
  (forall sql vars,
      gorm.Expr sql vars ∈ drop (length (gorm.Wheres base)) (gorm.Wheres compiled) ->
      gorm.placeholders sql = length vars
      /\ bound_values (gorm.bind_vars sql vars) = vars
      /\ ~ In gorm.Unbound (gorm.bind_vars sql vars)
      /\ gorm.bind_vars sql vars =
           gorm.bind_vars (QueryBuilder q) (QueryArgs q)
           ++ gorm.bind_vars (AndBracketBuilder q) (AndBracketArgs q)
           ++ gorm.bind_vars (OrBracketBuilder q) (OrBracketArgs q))
  /\ (forall sql vars,
      gorm.Expr sql vars ∈ drop (length (gorm.Havings base)) (gorm.Havings compiled) ->
      gorm.placeholders sql = length vars
      /\ bound_values (gorm.bind_vars sql vars) = vars
      /\ ~ In gorm.Unbound (gorm.bind_vars sql vars)).
Proof.
  intros Hroot Hand Hor Hhav base compiled. subst base compiled.
  assert (HandA : bracketArgs (AndBracketBuilder q) (AndBracketArgs q) = AndBracketArgs q).
  { unfold bracketArgs.
    destruct (0 <? String.length (AndBracketBuilder q))%nat eqn:E; [reflexivity |].
    apply ltb_length_false in E. rewrite E in Hand. simpl in Hand.
    symmetry. now apply nil_length_inv. }
  assert (HorA : bracketArgs (OrBracketBuilder q) (OrBracketArgs q) = OrBracketArgs q).
  { unfold bracketArgs.
    destruct (0 <? String.length (OrBracketBuilder q))%nat eqn:E; [reflexivity |].
    apply ltb_length_false in E. rewrite E in Hor. simpl in Hor.
    symmetry. now apply nil_length_inv. }
  split.
  - intros sql vars Hin.
    rewrite buildCondition_Wheres, drop_app_length in Hin.
    apply elem_of_app in Hin. destruct Hin as [Hin | Hin].
    + destruct (0 <? String.length (QueryBuilder q))%nat eqn:E;
        [| now apply elem_of_nil in Hin].
      apply list_elem_of_singleton in Hin.
      unfold compiledQuery in Hin. rewrite E in Hin. simpl in Hin.
      rewrite HandA, HorA in Hin. inversion Hin; subst sql vars; clear Hin.
      assert (Hcount :
        gorm.placeholders (QueryBuilder q +:+ AndBracketBuilder q +:+ OrBracketBuilder q)
        = length (QueryArgs q ++ AndBracketArgs q ++ OrBracketArgs q)).
      { rewrite !placeholders_append, !length_app. lia. }
      destruct (bound_values_bind _ _ Hcount) as [Hb Hu].
      repeat split; [exact Hcount | exact Hb | exact Hu |].
      rewrite bind_vars_append by exact Hroot.
      rewrite bind_vars_append by exact Hand.
      reflexivity.
    + destruct (0 <? size (ConditionMap q))%nat;
        [| now apply elem_of_nil in Hin].
      apply list_elem_of_singleton in Hin. discriminate.
  - intros sql vars Hin.
    rewrite buildCondition_Havings, drop_app_length in Hin.
    destruct (0 <? String.length (HavingBuilder q))%nat;
      [| now apply elem_of_nil in Hin].
    apply list_elem_of_singleton in Hin. inversion Hin; subst sql vars.
    destruct (bound_values_bind _ _ Hhav) as [Hb Hu].
    repeat split; assumption.
Qed.

(* =================================================================== *)
(** ** Page queries                                                    *)
(* =================================================================== *)

Ltac run_monad :=
  unfold mbind, mret, gorm.M_bind, gorm.M_ret, gorm.Count, gorm.Find, gorm.Scan,
    gorm.FindMaps, gorm.First, gorm.CreateInBatches, gorm.issue; simpl.

(** One run of [SelectPage], step by step. *)
Lemma SelectPage_run (page : Page T) (q : option Query) (opts : list OptionFunc)
    (log : list (gorm.Call T)) :
  SelectPage page q opts log =
    let countDb := snd (buildCondition q opts) in
    let q1 := fst (buildCondition q opts) in
    match gorm.run_count exec countDb with
    | (total, Some err) =>
        ((page, gorm.finished countDb (gorm.RowsAffected countDb) (Some err), q1),
         log ++ [gorm.CallCount countDb])
    | (total, None) =>
        let tx := Scopes (paginate (set_Total total page)) (snd (buildCondition q1 opts)) in
        let rows := fst (gorm.run_find exec tx) in
        ((set_Records rows (set_Total total page),
          gorm.finished tx (Z.of_nat (length rows)) (snd (gorm.run_find exec tx)),
          fst (buildCondition q1 opts)),
         (log ++ [gorm.CallCount countDb]) ++ [gorm.CallFind tx])
    end.
Proof.
  unfold SelectPage, SelectCount. run_monad.
  destruct (buildCondition q opts) as [q1 countDb]; simpl.
  destruct (gorm.run_count exec countDb) as [total [err|]]; simpl; [reflexivity |].
  destruct (buildCondition q1 opts) as [q2 dataDb]; simpl.
  destruct (gorm.run_find exec _) as [rows e2]; reflexivity.
Qed.

(** One run of [SelectPageModel]. *)
Lemma SelectPageModel_run (page : Page R) (q : option Query) (opts : list OptionFunc)
    (log : list (gorm.Call T)) :
  SelectPageModel page q opts log =
    let countDb := snd (buildCondition q opts) in
    let q1 := fst (buildCondition q opts) in
    match gorm.run_count exec countDb with
    | (total, Some err) =>
        ((page, gorm.finished countDb (gorm.RowsAffected countDb) (Some err), q1),
         log ++ [gorm.CallCount countDb])
    | (total, None) =>
        let tx := Scopes (paginate (set_Total total page)) (snd (buildCondition q1 opts)) in
        let rows := fst (gorm.run_scan exec tx) in
        ((set_Records rows (set_Total total page),
          gorm.finished tx (Z.of_nat (length rows)) (snd (gorm.run_scan exec tx)),
          fst (buildCondition q1 opts)),
         (log ++ [gorm.CallCount countDb]) ++ [gorm.CallScan tx])
    end.
Proof.
  unfold SelectPageModel, SelectCount. run_monad.
  destruct (buildCondition q opts) as [q1 countDb]; simpl.
  destruct (gorm.run_count exec countDb) as [total [err|]]; simpl; [reflexivity |].
  destruct (buildCondition q1 opts) as [q2 dataDb]; simpl.
  destruct (gorm.run_scan exec _) as [rows e2]; reflexivity.
Qed.

(** One run of [SelectPageMaps]. *)
Lemma SelectPageMaps_run (page : Page (gmap string gorm.Value)) (q : option Query)
    (opts : list OptionFunc) (log : list (gorm.Call T)) :
  SelectPageMaps page q opts log =
    let countDb := snd (buildCondition q opts) in
    let q1 := fst (buildCondition q opts) in
    match gorm.run_count exec countDb with
    | (total, Some err) =>
        ((page, gorm.finished countDb (gorm.RowsAffected countDb) (Some err), q1),
         log ++ [gorm.CallCount countDb])
    | (total, None) =>
        let tx := Scopes (paginate (set_Total total page)) (snd (buildCondition q1 opts)) in
        let rows := fst (gorm.run_maps exec tx) in
        ((set_Records (Records page ++ range_addrs perIteration rows)
            (set_Total total page),
          gorm.finished tx (Z.of_nat (length rows)) (snd (gorm.run_maps exec tx)),
          fst (buildCondition q1 opts)),
         (log ++ [gorm.CallCount countDb]) ++ [gorm.CallFindMaps tx])
    end.
Proof.
  unfold SelectPageMaps, SelectCount. run_monad.
  destruct (buildCondition q opts) as [q1 countDb]; simpl.
  destruct (gorm.run_count exec countDb) as [total [err|]]; simpl; [reflexivity |].
  destruct (buildCondition q1 opts) as [q2 dataDb]; simpl.
  destruct (gorm.run_maps exec _) as [rows e2]; reflexivity.
Qed.

Lemma range_addrs_length {X : Type} (b : bool) (xs : list X) :
  length (range_addrs b xs) = length xs.
Proof.
  unfold range_addrs. destruct b; [reflexivity |].
  destruct (last xs) as [x|] eqn:E.
  - apply length_replicate.
  - apply last_None in E. now subst.
Qed.

(** C3 (amended).  [SelectPage], [SelectPageModel] and [SelectPageMaps]
    first issue the count query.  If the count reports an error, the
    page comes back exactly as it was passed in (no record added, Total
    not assigned), the returned handle carries that error, and the count
    is the only call that reached the executor.  Otherwise Total is the
    count, the data query is the second and last call, and Records is
    populated from its rows: replaced by them in [SelectPage] and
    [SelectPageModel], extended by one entry per row in
    [SelectPageMaps]. *)
Theorem SelectPage_count_first (page : Page T) (pageR : Page R)
    (pageM : Page (gmap string gorm.Value)) (q : option Query)
    (opts : list OptionFunc) (log : list (gorm.Call T)) :
  let countDb := snd (buildCondition q opts) in
  let '(page1, db1, _, log1) := SelectPage page q opts log in
  let '(page2, db2, _, log2) := SelectPageModel pageR q opts log in
  let '(page3, db3, _, log3) := SelectPageMaps pageM q opts log in
  match gorm.run_count exec countDb with
  | (_, Some err) =>
      (page1 = page /\ gorm.Error db1 = Some err /\ log1 = log ++ [gorm.CallCount countDb])
      /\ (page2 = pageR /\ gorm.Error db2 = Some err /\ log2 = log ++ [gorm.CallCount countDb])
      /\ (page3 = pageM /\ gorm.Error db3 = Some err /\ log3 = log ++ [gorm.CallCount countDb])
  | (total, None) =>
      (exists tx, log1 = log ++ [gorm.CallCount countDb; gorm.CallFind tx]
         /\ Total page1 = total
         /\ Records page1 = fst (gorm.run_find exec tx)
         /\ gorm.Error db1 = snd (gorm.run_find exec tx))
      /\ (exists tx, log2 = log ++ [gorm.CallCount countDb; gorm.CallScan tx]
         /\ Total page2 = total
         /\ Records page2 = fst (gorm.run_scan exec tx)
         /\ gorm.Error db2 = snd (gorm.run_scan exec tx))
      /\ (exists tx, log3 = log ++ [gorm.CallCount countDb; gorm.CallFindMaps tx]
         /\ Total page3 = total
         /\ length (Records page3) =
              (length (Records pageM) + length (fst (gorm.run_maps exec tx)))%nat
         /\ take (length (Records pageM)) (Records page3) = Records pageM
         /\ gorm.Error db3 = snd (gorm.run_maps exec tx))
  end.
Proof.
  intros countDb. subst countDb.
  rewrite SelectPage_run, SelectPageModel_run, SelectPageMaps_run. simpl.
  destruct (gorm.run_count exec _) as [total [err|]]; simpl.
  - repeat split; reflexivity.
  - repeat split.
    + eexists. rewrite <- app_assoc. simpl. repeat split; reflexivity.
    + eexists. rewrite <- app_assoc. simpl. repeat split; reflexivity.
    + eexists. rewrite <- app_assoc. simpl.
      split; [reflexivity |]. split; [reflexivity |].
      split; [now rewrite length_app, range_addrs_length |].
      split; [apply take_app_length | reflexivity].
Qed.

(** C10.  After [SelectPage], [SelectPageModel] or [SelectPageMaps] the
    descriptor's Current and Size are those at entry, whatever the
    executor answers; the defaults for values that are not positive go
    to the locals captured by the closure of [paginate], which the
    descriptor does not share. *)
Theorem SelectPage_keeps_current_size (p : Page T) (pageR : Page R)
    (pageM : Page (gmap string gorm.Value)) (q : option Query)
    (opts : list OptionFunc) (log : list (gorm.Call T)) :
  let '(page1, _, _, _) := SelectPage p q opts log in
  let '(page2, _, _, _) := SelectPageModel pageR q opts log in
  let '(page3, _, _, _) := SelectPageMaps pageM q opts log in
  (Current page1 = Current p /\ Size page1 = Size p)
  /\ (Current page2 = Current pageR /\ Size page2 = Size pageR)
  /\ (Current page3 = Current pageM /\ Size page3 = Size pageM)
  /\ (forall db : gorm.DB,
        let env := fst (paginate_func (paginate p) db) in
        page env = (if Current p <=? 0 then 1 else Current p)
        /\ pageSize env = (if Size p <=? 0 then 10 else Size p)).
Proof.
  rewrite SelectPage_run, SelectPageModel_run, SelectPageMaps_run. simpl.
  destruct (gorm.run_count exec _) as [total [err|]]; simpl;
    repeat split; reflexivity.
Qed.

(** *** Compiling the same builder twice *)

Lemma Scopes_Wheres (env : paginateEnv) (db : gorm.DB) :
  gorm.Wheres (gorm.Stmt (Scopes env db)) = gorm.Wheres (gorm.Stmt db).
Proof. reflexivity. Qed.

Lemma append_length (a b : string) :
  String.length (a +:+ b) = (String.length a + String.length b)%nat.
Proof.
  induction a as [|c a IH]; [reflexivity |].
  rewrite append_cons. simpl. now rewrite IH.
Qed.

Lemma compiledQuery_root (q : Query) :
  (0 <? String.length (QueryBuilder q))%nat = true ->
  compiledQuery q =
    mkQuery (SelectColumns q) (DistinctColumns q)
      (QueryBuilder q +:+ AndBracketBuilder q +:+ OrBracketBuilder q)
      (QueryArgs q ++ bracketArgs (AndBracketBuilder q) (AndBracketArgs q)
                   ++ bracketArgs (OrBracketBuilder q) (OrBracketArgs q))
      (AndBracketBuilder q) (AndBracketArgs q)
      (OrBracketBuilder q) (OrBracketArgs q)
      (OrderBuilder q) (GroupBuilder q)
      (HavingBuilder q) (HavingArgs q) (UpdateMap q) (ConditionMap q).
Proof. intros H. unfold compiledQuery. now rewrite H. Qed.

(** C9.  With a non-empty root predicate and a non-empty AND-group or
    OR-group, one run of [buildCondition] leaves the builder with the
    group text appended to [QueryBuilder] and the group arguments
    appended to [QueryArgs], the groups themselves untouched; compiling
    the builder it left therefore yields a condition with the group text
    and arguments twice; and [SelectPage], whose count succeeds, sends
    the executor a count query with the groups once and a data query
    with the groups twice. *)
Theorem buildCondition_appends_groups_again (q : Query) (opts : list OptionFunc)
    (p : Page T) :
  (0 < String.length (QueryBuilder q))%nat ->
  (0 < String.length (AndBracketBuilder q))%nat
    \/ (0 < String.length (OrBracketBuilder q))%nat ->
  let group := AndBracketBuilder q +:+ OrBracketBuilder q in
  let groupArgs := bracketArgs (AndBracketBuilder q) (AndBracketArgs q)
                   ++ bracketArgs (OrBracketBuilder q) (OrBracketArgs q) in
  let once := gorm.Expr (QueryBuilder q +:+ group) (QueryArgs q ++ groupArgs) in
  let twice := gorm.Expr (QueryBuilder q +:+ group +:+ group)
                         (QueryArgs q ++ groupArgs ++ groupArgs) in
  let eqMap := if (0 <? size (ConditionMap q))%nat
               then [gorm.EqMap (resolveConditionMap (ConditionMap q))] else [] in
  let base := gorm.Wheres (gorm.Stmt (getDb opts)) in
  group <> EmptyString
  /\ exists q1 : Query,
      fst (buildCondition (Some q) opts) = Some q1
      /\ QueryBuilder q1 = QueryBuilder q +:+ group
      /\ QueryArgs q1 = QueryArgs q ++ groupArgs
      /\ AndBracketBuilder q1 = AndBracketBuilder q
      /\ AndBracketArgs q1 = AndBracketArgs q
      /\ OrBracketBuilder q1 = OrBracketBuilder q
      /\ OrBracketArgs q1 = OrBracketArgs q
      /\ gorm.Wheres (gorm.Stmt (snd (buildCondition (Some q) opts)))
           = base ++ [once] ++ eqMap
      /\ gorm.Wheres (gorm.Stmt (snd (buildCondition (Some q1) opts)))
           = base ++ [twice] ++ eqMap
      /\ (snd (gorm.run_count exec (snd (buildCondition (Some q) opts))) = None ->
          exists countDb dataDb,
            snd (SelectPage p (Some q) opts []) =
              [gorm.CallCount countDb; gorm.CallFind dataDb]
            /\ gorm.Wheres (gorm.Stmt countDb) = base ++ [once] ++ eqMap
            /\ gorm.Wheres (gorm.Stmt dataDb) = base ++ [twice] ++ eqMap).
Proof.
  intros Hroot Hgroup group groupArgs once twice eqMap base.
  assert (Hroot' := proj2 (Nat.ltb_lt _ _) Hroot).
  assert (Hq1 : (0 <? String.length (QueryBuilder (compiledQuery q)))%nat = true).
  { unfold compiledQuery. rewrite Hroot'. simpl. apply Nat.ltb_lt.
    rewrite append_length. lia. }
  assert (Hfirst : gorm.Wheres (gorm.Stmt (snd (buildCondition (Some q) opts)))
                   = base ++ [once] ++ eqMap).
  { rewrite buildCondition_Wheres. unfold compiledQuery. rewrite Hroot'.
    reflexivity. }
  assert (Hsecond :
    gorm.Wheres (gorm.Stmt (snd (buildCondition (Some (compiledQuery q)) opts)))
    = base ++ [twice] ++ eqMap).
  { rewrite buildCondition_Wheres. rewrite Hq1.
    rewrite (compiledQuery_root (compiledQuery q) Hq1). simpl.
    rewrite (compiledQuery_root q Hroot'). simpl.
    subst twice group groupArgs eqMap base.
    rewrite !append_assoc, <- !app_assoc. reflexivity. }
  split.
  - subst group. intros Hempty.
    assert (Hlen : String.length (AndBracketBuilder q +:+ OrBracketBuilder q) = 0%nat)
      by now rewrite Hempty.
    rewrite append_length in Hlen. lia.
  - exists (compiledQuery q).
    split; [apply buildCondition_query |].
    repeat (split; [rewrite (compiledQuery_root q Hroot'); reflexivity |]).
    split; [exact Hfirst |]. split; [exact Hsecond |].
    intros Hcount.
    rewrite SelectPage_run. cbv zeta.
    destruct (gorm.run_count exec _) as [total e] eqn:Hrun.
    cbn [snd] in Hcount. subst e. cbn [snd].
    eexists. eexists. split; [reflexivity |].
    split; [exact Hfirst |].
    rewrite Scopes_Wheres, buildCondition_query. exact Hsecond.
Qed.

(* =================================================================== *)
(** ** Pagination                                                      *)
(* =================================================================== *)

Lemma is_int_bounds (z : Z) :
  -9223372036854775808 <= z <= 9223372036854775807 -> gorm.is_int z.
Proof.
  unfold gorm.is_int, gorm.minInt, gorm.maxInt, gorm.intSize.
  change (2 ^ (64 - 1)) with 9223372036854775808. lia.
Qed.

Lemma wrap_id (z : Z) : gorm.is_int z -> gorm.wrap z = z.
Proof.
  unfold gorm.is_int, gorm.wrap, gorm.minInt, gorm.maxInt, gorm.intSize.
  change (2 ^ (64 - 1)) with 9223372036854775808.
  change (2 ^ 64) with 18446744073709551616.
  intros H. rewrite Z.mod_small by lia. lia.
Qed.

(** C4 (amended).  For a descriptor whose Current and Size are 64-bit
    integers, the scope that [paginate] returns treats Current as 1 when
    it is not positive and Size as 10 when it is not positive, sets the
    limit to the effective size and the offset to
    (effective current - 1) * effective size as the machine multiplies:
    the exact product whenever it is a 64-bit integer, the product
    wrapped to 64 bits otherwise.  The scope always returns and raises
    no error on the handle. *)
Theorem paginate_offset_limit {X : Type} (p : Page X) (db : gorm.DB) :
  gorm.is_int (Current p) ->
  gorm.is_int (Size p) ->
  let effectiveCurrent := if Current p <=? 0 then 1 else Current p in
  let effectiveSize := if Size p <=? 0 then 10 else Size p in
  let tx := Scopes (paginate p) db in
  gorm.Limit_ (gorm.Stmt tx) = Some effectiveSize
  /\ gorm.Offset_ (gorm.Stmt tx) =
       Some (gorm.wrap ((effectiveCurrent - 1) * effectiveSize))
  /\ (gorm.is_int ((effectiveCurrent - 1) * effectiveSize) ->
      gorm.Offset_ (gorm.Stmt tx) = Some ((effectiveCurrent - 1) * effectiveSize))
  /\ gorm.Error tx = gorm.Error db.
Proof.
  intros Hc Hs effectiveCurrent effectiveSize tx.
  assert (Hsub : gorm.int_sub effectiveCurrent 1 = effectiveCurrent - 1).
  { unfold gorm.int_sub. apply wrap_id.
    subst effectiveCurrent. revert Hc.
    unfold gorm.is_int, gorm.minInt, gorm.maxInt, gorm.intSize.
    change (2 ^ (64 - 1)) with 9223372036854775808.
    destruct (Current p <=? 0) eqn:E; [lia |].
    apply Z.leb_gt in E. lia. }
  assert (Hoff : gorm.Offset_ (gorm.Stmt tx) =
                 Some (gorm.wrap ((effectiveCurrent - 1) * effectiveSize))).
  { subst tx. unfold Scopes, paginate, paginate_func. simpl.
    fold effectiveCurrent. fold effectiveSize. rewrite Hsub. reflexivity. }
  split; [reflexivity |]. split; [exact Hoff |]. split; [| reflexivity].
  intros Hfit. rewrite Hoff. now rewrite wrap_id.
Qed.

(* =================================================================== *)
(** ** Existence check                                                 *)
(* =================================================================== *)

(** [Exists] is the pair (rows affected > 0, error) of [SelectOne]. *)
Lemma Exists_of_SelectOne (q : option Query) (opts : list OptionFunc)
    (log : list (gorm.Call T)) :
  let '(_, dbRes, q1, log1) := SelectOne q opts log in
  Exists q opts log = ((0 <? gorm.RowsAffected dbRes, gorm.Error dbRes, q1), log1).
Proof.
  unfold Exists, SelectOne. run_monad.
  destruct (buildCondition q opts) as [q1 db]; simpl.
  destruct (gorm.run_find exec _) as [rows e]; reflexivity.
Qed.

(** [Exists] answers true without an error exactly when [SelectOne]
    read a row and reported no error. *)
Lemma Exists_true_iff (q : option Query) (opts : list OptionFunc)
    (log : list (gorm.Call T)) :
  let '(_, dbRes, _, _) := SelectOne q opts log in
  let '(found, err, _, _) := Exists q opts log in
  (found = true /\ err = None)
  <-> (0 < gorm.RowsAffected dbRes /\ gorm.Error dbRes = None).
Proof.
  pose proof (Exists_of_SelectOne q opts log) as H.
  destruct (SelectOne q opts log) as [[[entity dbRes] q1] log1].
  rewrite H. rewrite Z.ltb_lt. tauto.
Qed.

(** When the query reads no row and the driver reports nothing, [First]
    raises [ErrRecordNotFound], and [Exists] hands it on next to
    [false]. *)
Lemma Exists_no_row (q : option Query) (opts : list OptionFunc)
    (log : list (gorm.Call T)) :
  gorm.run_find exec (gorm.first_only (snd (buildCondition q opts))) = ([], None) ->
  fst (Exists q opts log)
  = (false, Some gorm.ErrRecordNotFound, fst (buildCondition q opts)).
Proof.
  intros Hrun. unfold Exists, SelectOne. run_monad.
  destruct (buildCondition q opts) as [q1 db]; simpl in *.
  rewrite Hrun. reflexivity.
Qed.

(* =================================================================== *)
(** ** Primary-key column                                              *)
(* =================================================================== *)

Lemma pkColumnLoop_skip (pre rest : list StructField) :
  Forall (fun g => isPrimaryKey (TagSetting g) = false) pre ->
  pkColumnLoop (pre ++ rest) = pkColumnLoop rest.
Proof.
  induction 1 as [|g pre Hg _ IH]; simpl; [reflexivity |].
  now rewrite Hg.
Qed.

(** C6 (amended).  [getPkColumnName] scans the fields in declaration
    order.  If no field carries a primary-key marker (in particular if
    there is no field) the result is the default name.  Otherwise the
    first marked field decides, whatever follows it: its explicit column
    name if it declares one, else the name the naming strategy derives
    from its identifier; that name is returned verbatim when it is not
    empty, and the default name is returned when it is empty. *)
Theorem getPkColumnName_first_marked :
  (forall fields : list StructField,
      Forall (fun g => isPrimaryKey (TagSetting g) = false) fields ->
      getPkColumnName fields = DefaultPrimaryName)
  /\ (forall (pre post : list StructField) (f : StructField),
      Forall (fun g => isPrimaryKey (TagSetting g) = false) pre ->
      isPrimaryKey (TagSetting f) = true ->
      let name := match TagSetting f !! "COLUMN" with
                  | Some explicit => explicit
                  | None => ColumnName EmptyString (Name f)
                  end in
      (name <> EmptyString -> getPkColumnName (pre ++ f :: post) = name)
      /\ (name = EmptyString ->
          getPkColumnName (pre ++ f :: post) = DefaultPrimaryName)).
Proof.
  split.
  - intros fields Hnone. unfold getPkColumnName.
    rewrite <- (app_nil_r fields), (pkColumnLoop_skip _ _ Hnone). reflexivity.
  - intros pre post f Hpre Hf name. unfold getPkColumnName.
    rewrite (pkColumnLoop_skip _ _ Hpre). simpl. rewrite Hf. fold name.
    split; intros Hname.
    + apply String.eqb_neq in Hname. now rewrite Hname.
    + rewrite Hname. reflexivity.
Qed.

(* =================================================================== *)
(** ** Batch insert                                                    *)
(* =================================================================== *)

(** C7.  [InsertBatch] and [InsertBatchSize] on an empty list return the
    handle that [getDb] produced and leave the log as it was: no create
    call reaches the executor, and the handle carries no new error. *)
Theorem InsertBatch_empty (batchSize : Z) (opts : list OptionFunc)
    (log : list (gorm.Call T)) :
  InsertBatch [] opts log = (getDb opts, log)
  /\ InsertBatchSize [] batchSize opts log = (getDb opts, log).
Proof. split; reflexivity. Qed.

(** C8.  On a non-empty list, [InsertBatchSize] with a size that is not
    positive issues the create call with the default size 1000 and is
    indistinguishable from [InsertBatch]; with a positive size it issues
    the create call with that size. *)
Theorem InsertBatchSize_default (entities : list T) (batchSize : Z)
    (opts : list OptionFunc) (log : list (gorm.Call T)) :
  entities <> [] ->
  (batchSize <= 0 ->
     InsertBatchSize entities batchSize opts log = InsertBatch entities opts log
     /\ snd (InsertBatchSize entities batchSize opts log)
        = log ++ [gorm.CallCreateInBatches (getDb opts) entities 1000])
  /\ (0 < batchSize ->
     InsertBatchSize entities batchSize opts log
     = gorm.CreateInBatches exec entities batchSize (getDb opts) log
     /\ snd (InsertBatchSize entities batchSize opts log)
        = log ++ [gorm.CallCreateInBatches (getDb opts) entities batchSize]).
Proof.
  intros Hne. unfold InsertBatchSize, InsertBatch.
  destruct entities as [|x xs]; [contradiction |]. simpl.
  split; intros Hsize.
  - apply Z.leb_le in Hsize. rewrite Hsize.
    split; [reflexivity |]. run_monad.
    destruct (gorm.run_create exec _ _ _) as [n e]; reflexivity.
  - apply Z.leb_gt in Hsize. rewrite Hsize.
    split; [reflexivity |]. run_monad.
    destruct (gorm.run_create exec _ _ _) as [n e]; reflexivity.
Qed.

(* =================================================================== *)
(** ** Further properties of the compile operation                     *)
(* =================================================================== *)

Lemma ltb_length_true (s : string) :
  (0 <? String.length s)%nat = true -> s <> EmptyString.
Proof. intros H E. subst s. discriminate. Qed.

Lemma bracketArgs_empty (args : list gorm.Value) : bracketArgs EmptyString args = [].
Proof. reflexivity. Qed.

(** X1.  A compilation gives the builder back as it received it exactly
    when the root predicate is empty or both bracket groups are empty; in
    every other case the builder it gives back differs. *)
Theorem buildCondition_unchanged_iff (q : Query) (opts : list OptionFunc) :
  fst (buildCondition (Some q) opts) = Some q
  <-> (QueryBuilder q = EmptyString
       \/ (AndBracketBuilder q = EmptyString /\ OrBracketBuilder q = EmptyString)).
Proof.
  rewrite buildCondition_query. unfold compiledQuery.
  destruct q as [sc dc root args andB andA orB orA ob gb hb ha um cm]; simpl.
  destruct (0 <? String.length root)%nat eqn:Hroot.
  - split.
    + intros H. right. inversion H as [[Htext Hargs]].
      assert (Hlen : String.length (root +:+ andB +:+ orB) = String.length root)
        by now rewrite Htext.
      rewrite !append_length in Hlen.
      split; apply length_zero_empty; lia.
    + intros [Hempty | [Hand Hor]].
      * subst root. discriminate.
      * subst andB orB.
        rewrite !bracketArgs_empty, !append_empty_r, !app_nil_r. reflexivity.
  - split; [| reflexivity].
    intros _. left. now apply ltb_length_false.
Qed.

Lemma repeat_string_snoc (n : nat) (s : string) :
  repeat_string n s +:+ s = s +:+ repeat_string n s.
Proof.
  induction n as [|n IH]; simpl.
  - now rewrite append_empty_r.
  - now rewrite append_assoc, IH.
Qed.

Lemma repeat_args_snoc (n : nat) (l : list gorm.Value) :
  repeat_args n l ++ l = l ++ repeat_args n l.
Proof.
  induction n as [|n IH]; simpl.
  - now rewrite app_nil_r.
  - now rewrite <- app_assoc, IH.
Qed.

(** One more compilation of a builder that holds [n] copies of the
    groups gives one that holds [n + 1]. *)
Lemma compiledQuery_grows (q qn : Query) (n : nat) :
  (0 < String.length (QueryBuilder q))%nat ->
  let group := AndBracketBuilder q +:+ OrBracketBuilder q in
  let groupArgs := bracketArgs (AndBracketBuilder q) (AndBracketArgs q)
                   ++ bracketArgs (OrBracketBuilder q) (OrBracketArgs q) in
  QueryBuilder qn = QueryBuilder q +:+ repeat_string n group ->
  QueryArgs qn = QueryArgs q ++ repeat_args n groupArgs ->
  AndBracketBuilder qn = AndBracketBuilder q ->
  AndBracketArgs qn = AndBracketArgs q ->
  OrBracketBuilder qn = OrBracketBuilder q ->
  OrBracketArgs qn = OrBracketArgs q ->
  ConditionMap qn = ConditionMap q ->
  (0 <? String.length (QueryBuilder qn))%nat = true
  /\ QueryBuilder (compiledQuery qn) = QueryBuilder q +:+ repeat_string (S n) group
  /\ QueryArgs (compiledQuery qn) = QueryArgs q ++ repeat_args (S n) groupArgs
  /\ AndBracketBuilder (compiledQuery qn) = AndBracketBuilder q
  /\ AndBracketArgs (compiledQuery qn) = AndBracketArgs q
  /\ OrBracketBuilder (compiledQuery qn) = OrBracketBuilder q
  /\ OrBracketArgs (compiledQuery qn) = OrBracketArgs q
  /\ ConditionMap (compiledQuery qn) = ConditionMap q.
Proof.
  intros Hroot group groupArgs Ht Ha HaB HaA HoB HoA Hcm.
  assert (Hne : (0 <? String.length (QueryBuilder qn))%nat = true).
  { apply Nat.ltb_lt. rewrite Ht, append_length. lia. }
  split; [exact Hne |].
  rewrite (compiledQuery_root qn Hne).
  cbn [QueryBuilder QueryArgs AndBracketBuilder AndBracketArgs OrBracketBuilder
       OrBracketArgs ConditionMap].
  rewrite Ht, Ha, HaB, HaA, HoB, HoA, Hcm. fold group. fold groupArgs.
  repeat split.
  - cbn [repeat_string]. now rewrite append_assoc, repeat_string_snoc.
  - cbn [repeat_args]. now rewrite <- app_assoc, repeat_args_snoc.
Qed.

(** X2.  With a non-empty root predicate, [n] compilations of one builder
    leave it with [n] copies of the bracket groups after the root text and
    [n] copies of their arguments after the root arguments, the groups
    themselves still in place; the next compilation then hands the
    executor a condition with [n + 1] copies. *)
Theorem compileTimes_repeats_groups (n : nat) (q : Query) (opts : list OptionFunc) :
  (0 < String.length (QueryBuilder q))%nat ->
  let group := AndBracketBuilder q +:+ OrBracketBuilder q in
  let groupArgs := bracketArgs (AndBracketBuilder q) (AndBracketArgs q)
                   ++ bracketArgs (OrBracketBuilder q) (OrBracketArgs q) in
  exists qn : Query,
    compileTimes n (Some q) opts = Some qn
    /\ QueryBuilder qn = QueryBuilder q +:+ repeat_string n group
    /\ QueryArgs qn = QueryArgs q ++ repeat_args n groupArgs
    /\ AndBracketBuilder qn = AndBracketBuilder q
    /\ AndBracketArgs qn = AndBracketArgs q
    /\ OrBracketBuilder qn = OrBracketBuilder q
    /\ OrBracketArgs qn = OrBracketArgs q
    /\ ConditionMap qn = ConditionMap q
    /\ gorm.Wheres (gorm.Stmt (snd (buildCondition (Some qn) opts)))
       = gorm.Wheres (gorm.Stmt (getDb opts))
         ++ [gorm.Expr (QueryBuilder q +:+ repeat_string (S n) group)
                       (QueryArgs q ++ repeat_args (S n) groupArgs)]
         ++ (if (0 <? size (ConditionMap q))%nat
             then [gorm.EqMap (resolveConditionMap (ConditionMap q))]
             else []).
Proof.
  intros Hroot group groupArgs.
  assert (Hn : exists qn : Query,
    compileTimes n (Some q) opts = Some qn
    /\ QueryBuilder qn = QueryBuilder q +:+ repeat_string n group
    /\ QueryArgs qn = QueryArgs q ++ repeat_args n groupArgs
    /\ AndBracketBuilder qn = AndBracketBuilder q
    /\ AndBracketArgs qn = AndBracketArgs q
    /\ OrBracketBuilder qn = OrBracketBuilder q
    /\ OrBracketArgs qn = OrBracketArgs q
    /\ ConditionMap qn = ConditionMap q).
  { induction n as [|n IH].
    - exists q. cbn [compileTimes repeat_string repeat_args].
      rewrite append_empty_r, app_nil_r. repeat split; reflexivity.
    - destruct IH as (qk & Hk & Ht & Ha & HaB & HaA & HoB & HoA & Hcm).
      exists (compiledQuery qk). cbn [compileTimes]. rewrite Hk.
      split; [apply buildCondition_query |].
      destruct (compiledQuery_grows q qk n Hroot Ht Ha HaB HaA HoB HoA Hcm)
        as (_ & H). exact H. }
  destruct Hn as (qn & Hk & Ht & Ha & HaB & HaA & HoB & HoA & Hcm).
  exists qn. repeat (split; [assumption |]).
  destruct (compiledQuery_grows q qn n Hroot Ht Ha HaB HaA HoB HoA Hcm)
    as (Hne & Ht' & Ha' & _).
  rewrite buildCondition_Wheres, Hne, Ht', Ha', Hcm. reflexivity.
Qed.

(** X3.  If the root, the AND-group, the OR-group and the having
    component of a builder each hold as many arguments as placeholders,
    so do those of the builder that a compilation gives back: the pairing
    survives any number of compilations. *)
Theorem buildCondition_keeps_pairing (q q' : Query) (opts : list OptionFunc) :
  gorm.placeholders (QueryBuilder q) = length (QueryArgs q) ->
  gorm.placeholders (AndBracketBuilder q) = length (AndBracketArgs q) ->
  gorm.placeholders (OrBracketBuilder q) = length (OrBracketArgs q) ->
  gorm.placeholders (HavingBuilder q) = length (HavingArgs q) ->
  fst (buildCondition (Some q) opts) = Some q' ->
  gorm.placeholders (QueryBuilder q') = length (QueryArgs q')
  /\ gorm.placeholders (AndBracketBuilder q') = length (AndBracketArgs q')
  /\ gorm.placeholders (OrBracketBuilder q') = length (OrBracketArgs q')
  /\ gorm.placeholders (HavingBuilder q') = length (HavingArgs q').
Proof.
  intros Hroot Hand Hor Hhav Hq'.
  rewrite buildCondition_query in Hq'. inversion Hq' as [Heq]. clear Hq'.
  unfold compiledQuery.
  destruct (0 <? String.length (QueryBuilder q))%nat; [| now repeat split].
  simpl. repeat split; try assumption.
  rewrite !placeholders_append, !length_app, Hroot, Hand, Hor.
  unfold bracketArgs.
  destruct (0 <? String.length (AndBracketBuilder q))%nat eqn:Ea;
    destruct (0 <? String.length (OrBracketBuilder q))%nat eqn:Eo;
    try (apply ltb_length_false in Ea; rewrite Ea in Hand; simpl in Hand);
    try (apply ltb_length_false in Eo; rewrite Eo in Hor; simpl in Hor);
    simpl; lia.
Qed.

(** *** The other clauses of the compiled statement *)


(** Everything but the conditions of the statement that [buildCondition]
    returns, in terms of the handle of [getDb]. *)
Lemma buildCondition_clauses (q : Query) (opts : list OptionFunc) :
  let compiled := snd (buildCondition (Some q) opts) in
  let base := getDb opts in
  gorm.Selects (gorm.Stmt compiled)
    = (if (0 <? length (SelectColumns q))%nat then SelectColumns q
       else if (0 <? length (DistinctColumns q))%nat then DistinctColumns q
       else gorm.Selects (gorm.Stmt base))
  /\ gorm.Distinct_ (gorm.Stmt compiled)
     = ((0 <? length (DistinctColumns q))%nat || gorm.Distinct_ (gorm.Stmt base))
  /\ gorm.Omits (gorm.Stmt compiled) = gorm.Omits (gorm.Stmt base)
  /\ gorm.Orders (gorm.Stmt compiled)
     = gorm.Orders (gorm.Stmt base)
       ++ (if (0 <? String.length (OrderBuilder q))%nat then [OrderBuilder q] else [])
  /\ gorm.Groups (gorm.Stmt compiled)
     = gorm.Groups (gorm.Stmt base)
       ++ (if (0 <? String.length (GroupBuilder q))%nat then [GroupBuilder q] else [])
  /\ gorm.Offset_ (gorm.Stmt compiled) = gorm.Offset_ (gorm.Stmt base)
  /\ gorm.Limit_ (gorm.Stmt compiled) = gorm.Limit_ (gorm.Stmt base)
  /\ gorm.RaiseErrorOnNotFound (gorm.Stmt compiled)
     = gorm.RaiseErrorOnNotFound (gorm.Stmt base)
  /\ gorm.HasModel (gorm.Stmt compiled) = true
  /\ gorm.Error compiled = gorm.Error base
  /\ gorm.RowsAffected compiled = gorm.RowsAffected base.
Proof.
  unfold buildCondition.
  destruct q as [sc dc root args andB andA orB orA ob gb hb ha um cm]; simpl.
  destruct (0 <? length sc)%nat; destruct (0 <? length dc)%nat; simpl;
    (destruct (0 <? String.length root)%nat; simpl;
     [destruct (0 <? String.length andB)%nat; simpl;
      destruct (0 <? String.length orB)%nat; simpl |]);
    destruct (0 <? size cm)%nat; simpl;
    destruct (0 <? String.length ob)%nat; simpl;
    destruct (0 <? String.length gb)%nat; simpl;
    destruct (0 <? String.length hb)%nat; simpl;
    rewrite ?app_nil_r; repeat split; reflexivity.
Qed.

(** The handle of [getDb], in terms of the options folded into one
    configuration. *)
Lemma getDb_columns (opts : list OptionFunc) :
  let config := fold_left (fun config op => op config) opts (mkOption None [] []) in
  let base := default globalDb (Db config) in
  gorm.Selects (gorm.Stmt (getDb opts))
    = (if (0 <? length (Selects config))%nat
       then map getColumnName (Selects config)
       else gorm.Selects (gorm.Stmt base))
  /\ gorm.Omits (gorm.Stmt (getDb opts))
     = (if (0 <? length (Omits config))%nat
        then map getColumnName (Omits config)
        else gorm.Omits (gorm.Stmt base))
  /\ gorm.Wheres (gorm.Stmt (getDb opts)) = gorm.Wheres (gorm.Stmt base)
  /\ gorm.Havings (gorm.Stmt (getDb opts)) = gorm.Havings (gorm.Stmt base)
  /\ gorm.Orders (gorm.Stmt (getDb opts)) = gorm.Orders (gorm.Stmt base)
  /\ gorm.Groups (gorm.Stmt (getDb opts)) = gorm.Groups (gorm.Stmt base)
  /\ gorm.Offset_ (gorm.Stmt (getDb opts)) = gorm.Offset_ (gorm.Stmt base)
  /\ gorm.Limit_ (gorm.Stmt (getDb opts)) = gorm.Limit_ (gorm.Stmt base)
  /\ gorm.Error (getDb opts) = gorm.Error base
  /\ gorm.RowsAffected (getDb opts) = gorm.RowsAffected base.
Proof.
  intros config base. subst base.
  unfold getDb, setSelectIfNeed, setOmitIfNeed, gorm.Clauses. fold config.
  destruct (Db config) as [d|]; simpl;
    destruct (0 <? length (Selects config))%nat; simpl;
    destruct (0 <? length (Omits config))%nat; simpl;
    repeat split; reflexivity.
Qed.

(** X4.  Which columns a compiled statement selects is decided in this
    order: the builder's select columns if it has any; else the builder's
    distinct columns if it has any; else the columns named by the
    per-call options, resolved to column names, if there are any; else
    the columns of the handle the call starts from (the option override,
    or the global handle).  The distinct flag is set as soon as the
    builder has distinct columns, also when its select columns replace
    them. *)
Theorem buildCondition_select_precedence (q : Query) (opts : list OptionFunc) :
  let config := fold_left (fun config op => op config) opts (mkOption None [] []) in
  let base := default globalDb (Db config) in
  let compiled := gorm.Stmt (snd (buildCondition (Some q) opts)) in
  gorm.Selects compiled
    = (if (0 <? length (SelectColumns q))%nat then SelectColumns q
       else if (0 <? length (DistinctColumns q))%nat then DistinctColumns q
       else if (0 <? length (Selects config))%nat
            then map getColumnName (Selects config)
       else gorm.Selects (gorm.Stmt base))
  /\ gorm.Distinct_ compiled
     = ((0 <? length (DistinctColumns q))%nat || gorm.Distinct_ (gorm.Stmt base))
  /\ gorm.Omits compiled
     = (if (0 <? length (Omits config))%nat
        then map getColumnName (Omits config)
        else gorm.Omits (gorm.Stmt base)).
Proof.
  intros config base compiled. subst compiled.
  destruct (buildCondition_clauses q opts) as (Hs & Hd & Ho & _).
  destruct (getDb_columns opts) as (Hgs & Hgo & _).
  fold config in Hgs, Hgo. fold base in Hgs, Hgo.
  rewrite Hs, Hd, Ho, Hgs, Hgo.
  split; [reflexivity |]. split; [| reflexivity].
  f_equal. unfold getDb, setSelectIfNeed, setOmitIfNeed, gorm.Clauses.
  fold config. subst base.
  destruct (Db config); simpl;
    destruct (0 <? length (Selects config))%nat;
    destruct (0 <? length (Omits config))%nat; reflexivity.
Qed.

(** X5.  [buildCondition] sets neither offset nor limit and raises no
    error: those of the statement it returns are those of the handle
    [getDb] gave it.  It adds the builder's order text and group text,
    each only when non-empty, after the terms already on the handle. *)
Theorem buildCondition_no_window (q : option Query) (opts : list OptionFunc) :
  let compiled := snd (buildCondition q opts) in
  let base := getDb opts in
  gorm.Offset_ (gorm.Stmt compiled) = gorm.Offset_ (gorm.Stmt base)
  /\ gorm.Limit_ (gorm.Stmt compiled) = gorm.Limit_ (gorm.Stmt base)
  /\ gorm.Error compiled = gorm.Error base
  /\ gorm.Orders (gorm.Stmt compiled)
     = gorm.Orders (gorm.Stmt base)
       ++ match q with
          | Some b => if (0 <? String.length (OrderBuilder b))%nat
                      then [OrderBuilder b] else []
          | None => []
          end
  /\ gorm.Groups (gorm.Stmt compiled)
     = gorm.Groups (gorm.Stmt base)
       ++ match q with
          | Some b => if (0 <? String.length (GroupBuilder b))%nat
                      then [GroupBuilder b] else []
          | None => []
          end.
Proof.
  destruct q as [b|].
  - destruct (buildCondition_clauses b opts)
      as (_ & _ & _ & Ho & Hg & Hoff & Hlim & _ & _ & He & _).
    repeat split; assumption.
  - simpl. rewrite !app_nil_r. repeat split; reflexivity.
Qed.


(** X7.  A descriptor fresh from [NewPage] comes back from a failed count
    with no record and total zero, whatever page and size were asked
    for, and the count is the only call that reached the executor. *)
Theorem SelectPage_fresh_descriptor_failed_count (current size : Z)
    (q : option Query) (opts : list OptionFunc) (log : list (gorm.Call T))
    (err : gorm.Err) :
  snd (gorm.run_count exec (snd (buildCondition q opts))) = Some err ->
  let '(page1, db1, _, log1) := SelectPage (NewPage current size) q opts log in
  let '(page2, db2, _, log2) := SelectPageModel (NewPage current size) q opts log in
  let '(page3, db3, _, log3) := SelectPageMaps (NewPage current size) q opts log in
  (Records page1 = [] /\ Total page1 = 0 /\ gorm.Error db1 = Some err
   /\ log1 = log ++ [gorm.CallCount (snd (buildCondition q opts))])
  /\ (Records page2 = [] /\ Total page2 = 0 /\ gorm.Error db2 = Some err
      /\ log2 = log ++ [gorm.CallCount (snd (buildCondition q opts))])
  /\ (Records page3 = [] /\ Total page3 = 0 /\ gorm.Error db3 = Some err
      /\ log3 = log ++ [gorm.CallCount (snd (buildCondition q opts))]).
Proof.
  intros Hcount.
  rewrite SelectPage_run, SelectPageModel_run, SelectPageMaps_run. cbv zeta.
  destruct (gorm.run_count exec _) as [total e].
  cbn [snd] in Hcount. subst e. repeat split.
Qed.

(* =================================================================== *)
(** ** The equality map, column by column                              *)
(* =================================================================== *)

Lemma resolved_keys (l : list (string * gorm.Value)) :
  (map (fun kv => (getColumnName kv.1, kv.2)) l).*1 = getColumnName <$> l.*1.
Proof.
  induction l as [|x l IH]; [reflexivity |].
  simpl. f_equal. exact IH.
Qed.

Lemma list_to_map_size_le (l : list (string * gorm.Value)) :
  (size (list_to_map l : gmap string gorm.Value) <= length l)%nat.
Proof.
  induction l as [|[k v] l IH]; simpl.
  - rewrite map_size_empty. lia.
  - rewrite map_size_insert.
    destruct (list_to_map l !! k); simpl; lia.
Qed.

(** X8.  The column-resolved equality map never has more entries than the
    builder's map: two logical fields that resolve to one column leave a
    single equality. *)
Theorem resolveConditionMap_size_le (m : gmap string gorm.Value) :
  (size (resolveConditionMap m) <= size m)%nat.
Proof.
  unfold resolveConditionMap.
  etransitivity; [apply list_to_map_size_le |].
  rewrite length_map, length_map_to_list. lia.
Qed.

(** X9.  When the resolver sends different logical fields to different
    columns, the resolved map has exactly one entry per entry of the
    builder's map, and the value under a field's column is the value the
    builder holds for that field. *)
Theorem resolveConditionMap_injective (m : gmap string gorm.Value) :
  (forall k1 k2 : string, getColumnName k1 = getColumnName k2 -> k1 = k2) ->
  (forall k : string, resolveConditionMap m !! getColumnName k = m !! k)
  /\ size (resolveConditionMap m) = size m.
Proof.
  intros Hinj. split.
  - intros k. destruct (m !! k) as [v|] eqn:Hk.
    + destruct (resolveConditionMap_covers m k v Hk) as [v' Hv'].
      rewrite Hv'.
      destruct (resolveConditionMap_origin m _ _ Hv') as (k' & Hcol & Hk').
      apply Hinj in Hcol. subst k'. congruence.
    + destruct (resolveConditionMap m !! getColumnName k) as [v'|] eqn:Hv';
        [| reflexivity].
      destruct (resolveConditionMap_origin m _ _ Hv') as (k' & Hcol & Hk').
      apply Hinj in Hcol. subst k'. congruence.
  - unfold resolveConditionMap.
    rewrite map_size_list_to_map.
    + now rewrite length_map, length_map_to_list.
    + rewrite resolved_keys.
      apply NoDup_fmap_2_strong; [| apply NoDup_fst_map_to_list].
      intros x y _ _. apply Hinj.
Qed.

(* =================================================================== *)
(** ** Further properties of pagination                                *)
(* =================================================================== *)

Lemma Scopes_paginate_window {X : Type} (p : Page X) (db : gorm.DB) :
  let effectiveCurrent := if Current p <=? 0 then 1 else Current p in
  let effectiveSize := if Size p <=? 0 then 10 else Size p in
  gorm.Offset_ (gorm.Stmt (Scopes (paginate p) db))
    = Some (gorm.int_mul (gorm.int_sub effectiveCurrent 1) effectiveSize)
  /\ gorm.Limit_ (gorm.Stmt (Scopes (paginate p) db)) = Some effectiveSize.
Proof. split; reflexivity. Qed.

Lemma is_int_unfold (z : Z) :
  gorm.is_int z <-> -9223372036854775808 <= z <= 9223372036854775807.
Proof.
  unfold gorm.is_int, gorm.minInt, gorm.maxInt, gorm.intSize.
  change (2 ^ (64 - 1)) with 9223372036854775808. lia.
Qed.

Lemma wrap_is_int (z : Z) : gorm.is_int (gorm.wrap z).
Proof.
  unfold gorm.is_int, gorm.wrap, gorm.minInt, gorm.maxInt, gorm.intSize.
  change (2 ^ (64 - 1)) with 9223372036854775808.
  change (2 ^ 64) with 18446744073709551616.
  match goal with
  | |- context [?a mod ?b] => pose proof (Z.mod_pos_bound a b ltac:(lia))
  end.
  lia.
Qed.

(** X10.  Consecutive pages tile the result: for a page number and a size
    that are at least 1, as long as the end of the page still is a 64-bit
    integer, the offset of the next page is the offset of this page plus
    its limit. *)
Theorem paginate_pages_contiguous {X : Type} (p : Page X) (db : gorm.DB) :
  1 <= Current p ->
  1 <= Size p ->
  gorm.is_int (Current p * Size p) ->
  exists offset limit : Z,
    gorm.Offset_ (gorm.Stmt (Scopes (paginate p) db)) = Some offset
    /\ gorm.Limit_ (gorm.Stmt (Scopes (paginate p) db)) = Some limit
    /\ gorm.Offset_ (gorm.Stmt (Scopes (paginate (set_Current (Current p + 1) p)) db))
       = Some (offset + limit)
    /\ gorm.Limit_ (gorm.Stmt (Scopes (paginate (set_Current (Current p + 1) p)) db))
       = Some limit.
Proof.
  intros Hc Hs Hfit. apply (proj1 (is_int_unfold _)) in Hfit.
  exists ((Current p - 1) * Size p), (Size p).
  destruct (Scopes_paginate_window p db) as [Ho Hl].
  destruct (Scopes_paginate_window (set_Current (Current p + 1) p) db) as [Ho' Hl'].
  cbn [Current Size set_Current] in Ho'. cbn [Current Size set_Current] in Hl'.
  rewrite Ho, Hl, Ho', Hl'.
  assert (E1 : (Current p <=? 0) = false) by (apply Z.leb_gt; lia).
  assert (E2 : (Size p <=? 0) = false) by (apply Z.leb_gt; lia).
  assert (E3 : (Current p + 1 <=? 0) = false) by (apply Z.leb_gt; lia).
  rewrite E1, E2, E3.
  assert (Hcur : Current p <= Current p * Size p) by nia.
  assert (Hsub : gorm.int_sub (Current p) 1 = Current p - 1).
  { unfold gorm.int_sub. apply wrap_id, is_int_bounds. lia. }
  assert (Hsub' : gorm.int_sub (Current p + 1) 1 = Current p).
  { unfold gorm.int_sub. replace (Current p + 1 - 1) with (Current p) by lia.
    apply wrap_id, is_int_bounds. lia. }
  rewrite Hsub, Hsub'.
  assert (Hmul : gorm.int_mul (Current p - 1) (Size p) = (Current p - 1) * Size p).
  { unfold gorm.int_mul. apply wrap_id, is_int_bounds. nia. }
  assert (Hmul' : gorm.int_mul (Current p) (Size p) = Current p * Size p).
  { unfold gorm.int_mul. apply wrap_id, is_int_bounds. lia. }
  rewrite Hmul, Hmul'.
  repeat split. f_equal. lia.
Qed.

(** X11.  The defaults are applied once and for all: a descriptor whose
    Current and Size were replaced beforehand by their effective values
    gets the same offset and limit, and the closure, which keeps the
    effective values in its captured locals, sets the same offset and
    limit when it is called again. *)
Theorem paginate_defaults_idempotent {X : Type} (p : Page X) (db db' : gorm.DB) :
  let effectiveCurrent := if Current p <=? 0 then 1 else Current p in
  let effectiveSize := if Size p <=? 0 then 10 else Size p in
  Scopes (paginate (mkPage effectiveCurrent effectiveSize (Total p) (Records p))) db
    = Scopes (paginate p) db
  /\ paginate_func (fst (paginate_func (paginate p) db)) db'
     = (fst (paginate_func (paginate p) db), snd (paginate_func (paginate p) db')).
Proof.
  intros effectiveCurrent effectiveSize.
  assert (Hc : (if effectiveCurrent <=? 0 then 1 else effectiveCurrent)
               = effectiveCurrent).
  { subst effectiveCurrent. destruct (Current p <=? 0) eqn:E; [reflexivity |].
    now rewrite E. }
  assert (Hs : (if effectiveSize <=? 0 then 10 else effectiveSize) = effectiveSize).
  { subst effectiveSize. destruct (Size p <=? 0) eqn:E; [reflexivity |].
    now rewrite E. }
  unfold Scopes, paginate, paginate_func.
  cbn [page pageSize Current Size fst snd].
  fold effectiveCurrent. fold effectiveSize. rewrite Hc, Hs.
  split; reflexivity.
Qed.

(** X12.  For a descriptor whose Current and Size are 64-bit integers the
    limit is at least 1; and whenever the product
    (effective current - 1) * effective size is a 64-bit integer, the
    offset is not negative and is a multiple of the limit. *)
Theorem paginate_window_bounds {X : Type} (p : Page X) (db : gorm.DB) :
  gorm.is_int (Current p) ->
  gorm.is_int (Size p) ->
  let effectiveCurrent := if Current p <=? 0 then 1 else Current p in
  let effectiveSize := if Size p <=? 0 then 10 else Size p in
  exists offset limit : Z,
    gorm.Offset_ (gorm.Stmt (Scopes (paginate p) db)) = Some offset
    /\ gorm.Limit_ (gorm.Stmt (Scopes (paginate p) db)) = Some limit
    /\ 1 <= limit
    /\ gorm.is_int offset
    /\ (gorm.is_int ((effectiveCurrent - 1) * effectiveSize) ->
        0 <= offset /\ offset mod limit = 0).
Proof.
  intros Hc Hs effectiveCurrent effectiveSize.
  apply (proj1 (is_int_unfold _)) in Hc. apply (proj1 (is_int_unfold _)) in Hs.
  destruct (Scopes_paginate_window p db) as [Ho Hl].
  fold effectiveCurrent in Ho. fold effectiveSize in Ho, Hl.
  eexists. eexists. split; [exact Ho |]. split; [exact Hl |].
  assert (Hec : 1 <= effectiveCurrent <= 9223372036854775807).
  { subst effectiveCurrent. destruct (Current p <=? 0) eqn:E; [lia |].
    apply Z.leb_gt in E. lia. }
  assert (Hes : 1 <= effectiveSize <= 9223372036854775807).
  { subst effectiveSize. destruct (Size p <=? 0) eqn:E; [lia |].
    apply Z.leb_gt in E. lia. }
  assert (Hsub : gorm.int_sub effectiveCurrent 1 = effectiveCurrent - 1).
  { unfold gorm.int_sub. apply wrap_id, is_int_bounds. lia. }
  rewrite Hsub.
  split; [lia |]. split.
  - unfold gorm.int_mul. apply wrap_is_int.
  - intros Hfit. unfold gorm.int_mul. rewrite (wrap_id _ Hfit).
    split; [nia |].
    apply Z.mod_mul. lia.
Qed.

(* =================================================================== *)
(** ** The select operations                                           *)
(* =================================================================== *)

(** X13.  [SelectList], [SelectListByMap], [SelectListModel],
    [SelectListMaps], [SelectCount], [SelectOne] and [Exists] each compile
    the builder once and send the executor exactly one call, on the
    compiled statement ([SelectOne] and [Exists] on that statement
    limited to one row); a nil builder is accepted.  They hand back what
    the executor answered, and [SelectListByMap] is [SelectList]. *)
Theorem select_operations_dispatch (q : option Query) (opts : list OptionFunc)
    (log : list (gorm.Call T)) :
  let compiled := snd (buildCondition q opts) in
  let q1 := fst (buildCondition q opts) in
  (let '(rows, db, q', log') := SelectList q opts log in
   q' = q1 /\ log' = log ++ [gorm.CallFind compiled]
   /\ rows = fst (gorm.run_find exec compiled)
   /\ gorm.Error db = snd (gorm.run_find exec compiled)
   /\ gorm.RowsAffected db = Z.of_nat (length rows))
  /\ SelectListByMap q opts log = SelectList q opts log
  /\ (let '(rows, db, q', log') := SelectListModel q opts log in
      q' = q1 /\ log' = log ++ [gorm.CallScan compiled]
      /\ rows = fst (gorm.run_scan exec compiled)
      /\ gorm.Error db = snd (gorm.run_scan exec compiled)
      /\ gorm.RowsAffected db = Z.of_nat (length rows))
  /\ (let '(rows, db, q', log') := SelectListMaps q opts log in
      q' = q1 /\ log' = log ++ [gorm.CallFindMaps compiled]
      /\ rows = fst (gorm.run_maps exec compiled)
      /\ gorm.Error db = snd (gorm.run_maps exec compiled)
      /\ gorm.RowsAffected db = Z.of_nat (length rows))
  /\ (let '(count, db, q', log') := SelectCount q opts log in
      q' = q1 /\ log' = log ++ [gorm.CallCount compiled]
      /\ count = fst (gorm.run_count exec compiled)
      /\ gorm.Error db = snd (gorm.run_count exec compiled))
  /\ (let '(_, _, q', log') := SelectOne q opts log in
      q' = q1 /\ log' = log ++ [gorm.CallFirst (gorm.first_only compiled)])
  /\ (let '(_, _, q', log') := Exists q opts log in
      q' = q1 /\ log' = log ++ [gorm.CallFirst (gorm.first_only compiled)]).
Proof.
  unfold SelectList, SelectListByMap, SelectListModel, SelectListMaps, SelectCount,
    Exists, SelectOne.
  run_monad.
  destruct (buildCondition q opts) as [q1 compiled]; simpl.
  destruct (gorm.run_find exec compiled) as [rows e];
    destruct (gorm.run_scan exec compiled) as [rowsR eR];
    destruct (gorm.run_maps exec compiled) as [rowsM eM];
    destruct (gorm.run_count exec compiled) as [n eC];
    destruct (gorm.run_find exec (gorm.first_only compiled)) as [rows1 e1];
    simpl.
  repeat split.
Qed.

(** X14.  [SelectOne] on the executor's three kinds of answer.  No row and
    no error: the zero-valued entity comes back with [ErrRecordNotFound]
    and zero rows affected.  At least one row and no error: the first row
    comes back, with one row affected and no error, however many rows the
    executor produced.  An error of the driver: it is the error handed
    back, never replaced by [ErrRecordNotFound]. *)
Theorem SelectOne_outcomes (q : option Query) (opts : list OptionFunc)
    (log : list (gorm.Call T)) :
  let tx := gorm.first_only (snd (buildCondition q opts)) in
  let '(entity, db, _, _) := SelectOne q opts log in
  (gorm.run_find exec tx = ([], None) ->
     entity = zeroT /\ gorm.Error db = Some gorm.ErrRecordNotFound
     /\ gorm.RowsAffected db = 0)
  /\ (forall r rest, gorm.run_find exec tx = (r :: rest, None) ->
        entity = r /\ gorm.Error db = None /\ gorm.RowsAffected db = 1)
  /\ (forall rows e, gorm.run_find exec tx = (rows, Some e) ->
        gorm.Error db = Some e).
Proof.
  unfold SelectOne. run_monad.
  destruct (buildCondition q opts) as [q1 compiled]; simpl.
  destruct (gorm.run_find exec (gorm.first_only compiled)) as [rows e] eqn:Hrun.
  simpl. split; [| split].
  - intros H. inversion H; subst. repeat split.
  - intros r rest H. inversion H; subst. repeat split.
  - intros rows' e' H. inversion H; subst. reflexivity.
Qed.

(** X21.  [Exists] answers true exactly when the executor read at least
    one row, and returns no error exactly when it read at least one row
    and reported no error: it never answers false without an error. *)
Theorem Exists_outcomes (q : option Query) (opts : list OptionFunc)
    (log : list (gorm.Call T)) :
  let tx := gorm.first_only (snd (buildCondition q opts)) in
  let '(found, err, _, _) := Exists q opts log in
  (found = true <-> fst (gorm.run_find exec tx) <> [])
  /\ (err = None <->
      fst (gorm.run_find exec tx) <> [] /\ snd (gorm.run_find exec tx) = None)
  /\ ~ (found = false /\ err = None).
Proof.
  unfold Exists, SelectOne. run_monad.
  destruct (buildCondition q opts) as [q1 compiled]; simpl.
  destruct (gorm.run_find exec (gorm.first_only compiled)) as [[|r rows] [e|]];
    simpl; (split; [| split]);
    try (split; intros H; try discriminate; try (now destruct H);
         try (now split); try (exfalso; now apply H));
    try (intros [H1 H2]; discriminate).
Qed.

(* =================================================================== *)
(** ** The write operations                                            *)
(* =================================================================== *)

(** X15.  [Delete] and [Update] read the root predicate and its arguments
    only ([Update] also the update map): two builders that agree on them
    lead to the same delete, whatever their bracket groups, equality map,
    order, group, having or column lists are. *)
Theorem Delete_Update_read_root_only (q q' : Query) (opts : list OptionFunc)
    (log : list (gorm.Mutation T)) :
  QueryBuilder q = QueryBuilder q' ->
  QueryArgs q = QueryArgs q' ->
  Delete (Some q) opts log = Delete (Some q') opts log
  /\ (UpdateMap q = UpdateMap q' ->
      Update (Some q) opts log = Update (Some q') opts log).
Proof.
  intros Ht Ha. unfold Delete, Update. rewrite Ht, Ha.
  split; [reflexivity |]. intros Hu. now rewrite Hu.
Qed.

Lemma WhereString_nonempty (sql : string) (vars : list gorm.Value) (db : gorm.DB) :
  (0 <? String.length sql)%nat = true ->
  gorm.WhereString sql vars db = gorm.Where (gorm.Expr sql vars) db.
Proof.
  intros H. unfold gorm.WhereString.
  destruct sql; [discriminate | reflexivity].
Qed.

(** One run of [SelectList]. *)
Lemma SelectList_run (q : option Query) (opts : list OptionFunc)
    (log : list (gorm.Call T)) :
  SelectList q opts log =
    let compiled := snd (buildCondition q opts) in
    let rows := fst (gorm.run_find exec compiled) in
    ((rows,
      gorm.finished compiled (Z.of_nat (length rows))
        (snd (gorm.run_find exec compiled)),
      fst (buildCondition q opts)),
     log ++ [gorm.CallFind compiled]).
Proof.
  unfold SelectList. run_monad.
  destruct (buildCondition q opts) as [q1 compiled]; simpl.
  destruct (gorm.run_find exec compiled) as [rows e]; reflexivity.
Qed.

(** X16.  What [Delete] deletes by depends on whether the builder has
    been compiled.  On a builder with a non-empty root predicate,
    [Delete] alone hands the executor the root text and arguments
    without the bracket groups; [Delete] on the builder that [SelectList]
    gave back hands it the root text followed by the groups, with their
    arguments. *)
Theorem Delete_after_SelectList (q : Query) (opts : list OptionFunc)
    (rlog : list (gorm.Call T)) (log : list (gorm.Mutation T)) :
  (0 < String.length (QueryBuilder q))%nat ->
  let '(_, _, q1, _) := SelectList (Some q) opts rlog in
  (exists d r, Delete (Some q) opts log = Some (r, log ++ [gorm.MutDelete d])
     /\ gorm.Wheres (gorm.Stmt d)
        = gorm.Wheres (gorm.Stmt (getDb opts))
          ++ [gorm.Expr (QueryBuilder q) (QueryArgs q)])
  /\ (exists d r, Delete q1 opts log = Some (r, log ++ [gorm.MutDelete d])
     /\ gorm.Wheres (gorm.Stmt d)
        = gorm.Wheres (gorm.Stmt (getDb opts))
          ++ [gorm.Expr
                (QueryBuilder q +:+ AndBracketBuilder q +:+ OrBracketBuilder q)
                (QueryArgs q ++ bracketArgs (AndBracketBuilder q) (AndBracketArgs q)
                             ++ bracketArgs (OrBracketBuilder q) (OrBracketArgs q))]).
Proof.
  intros Hroot. apply Nat.ltb_lt in Hroot.
  rewrite SelectList_run. cbv zeta. rewrite buildCondition_query.
  assert (Hroot' : (0 <? String.length (QueryBuilder (compiledQuery q)))%nat = true).
  { rewrite (compiledQuery_root q Hroot). cbn [QueryBuilder].
    apply Nat.ltb_lt. apply Nat.ltb_lt in Hroot. rewrite append_length. lia. }
  unfold Delete, gorm.Delete, gorm.mutate.
  rewrite (WhereString_nonempty _ _ _ Hroot), (WhereString_nonempty _ _ _ Hroot').
  split.
  - destruct (gorm.run_mutation mut _) as [n e'].
    eexists. eexists. split; [reflexivity | reflexivity].
  - destruct (gorm.run_mutation mut _) as [n e'].
    eexists. eexists. split; [reflexivity |].
    rewrite (compiledQuery_root q Hroot). reflexivity.
Qed.

(** X17.  When the default primary-key name is not empty,
    [getPkColumnName] never returns the empty name, so the one delete
    that [DeleteById] sends carries a condition on a named column with
    the id as its single argument. *)
Theorem DeleteById_named_column (entityType : list StructField) (id : gorm.Value)
    (opts : list OptionFunc) (log : list (gorm.Mutation T)) :
  DefaultPrimaryName <> EmptyString ->
  getPkColumnName entityType <> EmptyString
  /\ exists d r column,
       DeleteById entityType id opts log = (r, log ++ [gorm.MutDelete d])
       /\ gorm.Wheres (gorm.Stmt d)
          = gorm.Wheres (gorm.Stmt (getDb opts)) ++ [gorm.Expr column [id]]
       /\ column = getPkColumnName entityType
       /\ column <> EmptyString.
Proof.
  intros Hdef.
  assert (Hpk : getPkColumnName entityType <> EmptyString).
  { unfold getPkColumnName.
    destruct (String.eqb (pkColumnLoop entityType) EmptyString) eqn:E;
      [exact Hdef | now apply String.eqb_neq]. }
  split; [exact Hpk |].
  unfold DeleteById, gorm.Delete, gorm.mutate.
  destruct (gorm.run_mutation mut _) as [n e].
  eexists. eexists. eexists. split; [reflexivity |].
  split; [reflexivity |]. split; [reflexivity | exact Hpk].
Qed.

(** X20.  [Insert], [UpdateById], [DeleteById], [Delete] and [Update]
    each send the executor exactly one mutation and hand back its
    verdict, rows affected and error, as it is.  [Insert] and
    [UpdateById] add no condition to the handle of [getDb]; [DeleteById]
    adds one; [Delete] and [Update] add the root predicate with its
    arguments when the root text is not empty, and add no condition when
    the root text is empty and has no argument. *)
Theorem write_operations_dispatch (entity : T) (entityType : list StructField)
    (id : gorm.Value) (q : Query) (opts : list OptionFunc)
    (log : list (gorm.Mutation T)) :
  let base := gorm.Wheres (gorm.Stmt (getDb opts)) in
  let sent (result : gorm.DB * list (gorm.Mutation T)) (m : gorm.Mutation T)
        (d : gorm.DB) :=
    snd result = log ++ [m]
    /\ gorm.RowsAffected (fst result) = fst (gorm.run_mutation mut m)
    /\ gorm.Error (fst result) = snd (gorm.run_mutation mut m)
    /\ gorm.Stmt (fst result) = gorm.Stmt d in
  (exists d, sent (Insert entity opts log) (gorm.MutCreate d entity) d
             /\ gorm.Wheres (gorm.Stmt d) = base)
  /\ (exists d, sent (UpdateById entity opts log) (gorm.MutUpdates d entity) d
                /\ gorm.Wheres (gorm.Stmt d) = base)
  /\ (exists d, sent (DeleteById entityType id opts log) (gorm.MutDelete d) d
                /\ length (gorm.Wheres (gorm.Stmt d)) = S (length base))
  /\ (exists d r, Delete (Some q) opts log = Some r
                  /\ sent r (gorm.MutDelete d) d
                  /\ (QueryBuilder q <> EmptyString ->
                      gorm.Wheres (gorm.Stmt d)
                      = base ++ [gorm.Expr (QueryBuilder q) (QueryArgs q)])
                  /\ (QueryBuilder q = EmptyString -> QueryArgs q = [] ->
                      gorm.Wheres (gorm.Stmt d) = base))
  /\ (exists d r, Update (Some q) opts log = Some r
                  /\ sent r (gorm.MutUpdatesMap d (UpdateMap q)) d
                  /\ (QueryBuilder q <> EmptyString ->
                      gorm.Wheres (gorm.Stmt d)
                      = base ++ [gorm.Expr (QueryBuilder q) (QueryArgs q)])
                  /\ (QueryBuilder q = EmptyString -> QueryArgs q = [] ->
                      gorm.Wheres (gorm.Stmt d) = base)).
Proof.
  intros base sent. subst sent base.
  unfold Insert, UpdateById, DeleteById, Delete, Update, gorm.Create, gorm.Updates,
    gorm.Delete, gorm.UpdatesMap, gorm.mutate.
  split; [| split; [| split; [| split]]].
  - exists (getDb opts).
    destruct (gorm.run_mutation mut _) as [n e]. repeat split.
  - exists (gorm.Model (getDb opts)).
    destruct (gorm.run_mutation mut _) as [n e]. repeat split.
  - exists (gorm.Where (gorm.Expr (getPkColumnName entityType) [id]) (getDb opts)).
    destruct (gorm.run_mutation mut _) as [n e].
    repeat split. simpl. rewrite length_app. simpl. lia.
  - exists (gorm.WhereString (QueryBuilder q) (QueryArgs q) (getDb opts)).
    eexists. split; [reflexivity |].
    destruct (gorm.run_mutation mut _) as [n e].
    split; [repeat split |]. split.
    + intros Hne. unfold gorm.WhereString.
      destruct (QueryBuilder q); [contradiction | reflexivity].
    + intros Ht Ha. unfold gorm.WhereString. rewrite Ht, Ha. reflexivity.
  - exists (gorm.WhereString (QueryBuilder q) (QueryArgs q) (gorm.Model (getDb opts))).
    eexists. split; [reflexivity |].
    destruct (gorm.run_mutation mut _) as [n e].
    split; [repeat split |]. split.
    + intros Hne. unfold gorm.WhereString.
      destruct (QueryBuilder q); [contradiction | reflexivity].
    + intros Ht Ha. unfold gorm.WhereString. rewrite Ht, Ha. reflexivity.
Qed.

(* =================================================================== *)
(** ** The batch operations                                            *)
(* =================================================================== *)

(** X19.  Whatever the list and the size asked for, [InsertBatch] and
    [InsertBatchSize] send the executor at most one call; when they send
    one, it is a batch create of the whole list, the list is not empty
    and the batch size is positive. *)
Theorem InsertBatch_call_shape (entities : list T) (batchSize : Z)
    (opts : list OptionFunc) (log : list (gorm.Call T)) :
  (exists calls,
      snd (InsertBatchSize entities batchSize opts log) = log ++ calls
      /\ (length calls <= 1)%nat
      /\ forall c, c ∈ calls ->
           exists size, c = gorm.CallCreateInBatches (getDb opts) entities size
                        /\ 0 < size /\ entities <> []
                        /\ size = (if batchSize <=? 0 then 1000 else batchSize))
  /\ (exists calls,
      snd (InsertBatch entities opts log) = log ++ calls
      /\ (length calls <= 1)%nat
      /\ forall c, c ∈ calls ->
           c = gorm.CallCreateInBatches (getDb opts) entities 1000
           /\ entities <> []).
Proof.
  unfold InsertBatchSize, InsertBatch.
  destruct entities as [|x xs]; simpl.
  - split; exists []; rewrite app_nil_r;
      (split; [reflexivity |]); (split; [simpl; lia |]);
      intros c Hc; now apply elem_of_nil in Hc.
  - run_monad. destruct (gorm.run_create exec _ _ _) as [n e].
    destruct (gorm.run_create exec _ _ _) as [n' e'].
    split.
    + eexists. split; [reflexivity |]. split; [simpl; lia |].
      intros c Hc. apply list_elem_of_singleton in Hc. subst c.
      eexists. split; [reflexivity |].
      unfold defaultBatchSize.
      split; [| split; [discriminate | reflexivity]].
      destruct (batchSize <=? 0) eqn:E; [lia |].
      apply Z.leb_gt in E. lia.
    + eexists. split; [reflexivity |]. split; [simpl; lia |].
      intros c Hc. apply list_elem_of_singleton in Hc. subst c.
      split; [reflexivity | discriminate].
Qed.

End Dao.

(* ===================================================================== *)
(** ** The properties at concrete inputs                                  *)
(* ===================================================================== *)

(** The compiled condition of [groupedQuery]. *)
Lemma buildCondition_fixed_order_witness :
  (0 < String.length (QueryBuilder groupedQuery))%nat
  /\ gorm.Wheres (gorm.Stmt (snd (buildCondition blankDb (fun c => c)
                                     (Some groupedQuery) [])))
     = [gorm.Expr "status = ? AND (city = ? AND zip = ? ) OR (vip = ? ) "
          [gorm.VInt 1; gorm.VStr "NY"; gorm.VStr "10001"; gorm.VBool true]].
Proof.
  assert (H : (0 < String.length (QueryBuilder groupedQuery))%nat)
    by (simpl; lia).
  split; [exact H |].
  destruct (buildCondition_fixed_order blankDb (fun c => c) groupedQuery [])
    as [Hcompiled _].
  destruct (Hcompiled H) as [Hw _].
  rewrite Hw. reflexivity.
Defined.

(** C1, as stated, fails: a builder with an AND-group and an empty root
    predicate compiles to a statement without any condition, so the
    group's clause and argument do not appear in it. *)
Lemma buildCondition_group_without_root :
  (0 < String.length (AndBracketBuilder groupOnlyQuery))%nat
  /\ AndBracketArgs groupOnlyQuery = [gorm.VStr "NY"]
  /\ gorm.Wheres (gorm.Stmt (snd (buildCondition blankDb (fun c => c)
                                     (Some groupOnlyQuery) [])))
     = [].
Proof.
  split; [simpl; lia |]. split; reflexivity.
Qed.

(** The condition compiled from [groupedQuery] has four placeholders and
    four arguments, bound in order. *)
Lemma buildCondition_placeholders_witness :
  let sql := "status = ? AND (city = ? AND zip = ? ) OR (vip = ? ) " in
  let vars := [gorm.VInt 1; gorm.VStr "NY"; gorm.VStr "10001"; gorm.VBool true] in
  gorm.placeholders (QueryBuilder groupedQuery) = length (QueryArgs groupedQuery)
  /\ gorm.placeholders (AndBracketBuilder groupedQuery)
     = length (AndBracketArgs groupedQuery)
  /\ gorm.placeholders (OrBracketBuilder groupedQuery)
     = length (OrBracketArgs groupedQuery)
  /\ gorm.placeholders (HavingBuilder groupedQuery)
     = length (HavingArgs groupedQuery)
  /\ gorm.placeholders sql = length vars
  /\ bound_values (gorm.bind_vars sql vars) = vars.
Proof.
  intros sql vars.
  assert (H1 : gorm.placeholders (QueryBuilder groupedQuery)
               = length (QueryArgs groupedQuery)) by reflexivity.
  assert (H2 : gorm.placeholders (AndBracketBuilder groupedQuery)
               = length (AndBracketArgs groupedQuery)) by reflexivity.
  assert (H3 : gorm.placeholders (OrBracketBuilder groupedQuery)
               = length (OrBracketArgs groupedQuery)) by reflexivity.
  assert (H4 : gorm.placeholders (HavingBuilder groupedQuery)
               = length (HavingArgs groupedQuery)) by reflexivity.
  repeat (split; [assumption |]).
  destruct (buildCondition_placeholders blankDb (fun c => c) groupedQuery []
              H1 H2 H3 H4) as [Hw _].
  destruct (Hw sql vars) as (Hn & Hb & _).
  - apply list_elem_of_singleton. reflexivity.
  - split; assumption.
Defined.

(** C3, as stated, fails: a descriptor that already holds a record and a
    total comes back from a failed count with that record and that total,
    so its Records are not empty. *)
Lemma SelectPage_failed_count_keeps_records :
  let '(page', resultDb, _, log) :=
    SelectPage unit unit countFails blankDb (fun c => c)
      (mkPage 2 10 7 [tt]) (Some groupedQuery) [] [] in
  gorm.Error resultDb = Some (gorm.ErrDriver "connection refused")
  /\ length log = 1%nat
  /\ Total page' = 7
  /\ Records page' = [tt]
  /\ Records page' <> [].
Proof.
  vm_compute. repeat split; discriminate.
Qed.

(** Page 2 of size 10 starts at offset 10. *)
Lemma paginate_offset_limit_witness :
  let p := @NewPage unit 2 10 in
  gorm.is_int (Current p)
  /\ gorm.is_int (Size p)
  /\ gorm.Limit_ (gorm.Stmt (Scopes (paginate p) blankDb)) = Some 10
  /\ gorm.Offset_ (gorm.Stmt (Scopes (paginate p) blankDb)) = Some 10.
Proof.
  intros p.
  assert (Hc : gorm.is_int (Current p)) by (apply is_int_bounds; simpl; lia).
  assert (Hs : gorm.is_int (Size p)) by (apply is_int_bounds; simpl; lia).
  destruct (paginate_offset_limit p blankDb Hc Hs) as (Hl & _ & Hexact & _).
  repeat (split; [assumption |]).
  apply Hexact. apply is_int_bounds. simpl. lia.
Defined.

(** C4, as stated, fails: for current = 2^62 + 1 and size = 4 the product
    (current - 1) * size is 2^64, and the offset the scope sets is 0. *)
Lemma paginate_offset_wraps :
  let p := @NewPage unit 4611686018427387905 4 in
  gorm.is_int (Current p)
  /\ gorm.is_int (Size p)
  /\ (Current p - 1) * Size p = 18446744073709551616
  /\ gorm.Offset_ (gorm.Stmt (Scopes (paginate p) blankDb)) = Some 0
  /\ gorm.Limit_ (gorm.Stmt (Scopes (paginate p) blankDb)) = Some 4.
Proof.
  intros p.
  split; [apply is_int_bounds; simpl; lia |].
  split; [apply is_int_bounds; simpl; lia |].
  repeat split; reflexivity.
Qed.

(** C5.  On a table where the predicate matches no record, [Exists]
    answers false together with the error [ErrRecordNotFound] that
    [First] raised, after one call to the executor: the outcome is not
    free of an error. *)
Theorem Exists_no_match_is_error :
  let '(found, err, _, log) :=
    Exists unit unit tt emptyTable blankDb (fun c => c)
      (Some groupedQuery) [] [] in
  found = false
  /\ err = Some gorm.ErrRecordNotFound
  /\ length log = 1%nat.
Proof.
  vm_compute. repeat split.
Qed.

(** The first marked field of three decides, with its explicit name. *)
Lemma getPkColumnName_first_marked_witness :
  Forall (fun g => isPrimaryKey (TagSetting g) = false) [plainField]
  /\ isPrimaryKey (TagSetting namedPkField) = true
  /\ getPkColumnName "id" lowerNaming
       ([plainField] ++ namedPkField :: [emptyNamedPkField]) = "user_id"
  /\ getPkColumnName "id" lowerNaming [plainField] = "id".
Proof.
  assert (H1 : Forall (fun g => isPrimaryKey (TagSetting g) = false) [plainField])
    by (repeat constructor).
  assert (H2 : isPrimaryKey (TagSetting namedPkField) = true) by reflexivity.
  split; [exact H1 |]. split; [exact H2 |].
  destruct (getPkColumnName_first_marked "id" lowerNaming) as [Hnone Hmarked].
  split.
  - destruct (Hmarked [plainField] [emptyNamedPkField] namedPkField H1 H2)
      as [Hname _].
    apply Hname. vm_compute. discriminate.
  - apply Hnone. exact H1.
Defined.

(** C6, as stated, fails: the first marked field declares the column name
    explicitly, as the empty string, and the result is the default name,
    not that name. *)
Lemma getPkColumnName_empty_explicit_name :
  isPrimaryKey (TagSetting emptyNamedPkField) = true
  /\ TagSetting emptyNamedPkField !! "COLUMN" = Some EmptyString
  /\ getPkColumnName "id" lowerNaming [emptyNamedPkField] = "id"
  /\ getPkColumnName "id" lowerNaming [emptyNamedPkField] <> EmptyString.
Proof.
  vm_compute. repeat split; discriminate.
Qed.

(** Two records with size 0 go out with size 1000, with size 5 as 5. *)
Lemma InsertBatchSize_default_witness :
  [tt; tt] <> []
  /\ snd (InsertBatchSize unit unit threeRows blankDb (fun c => c) [tt; tt] 0 [] [])
     = [gorm.CallCreateInBatches (getDb blankDb (fun c => c) []) [tt; tt] 1000]
  /\ snd (InsertBatchSize unit unit threeRows blankDb (fun c => c) [tt; tt] 5 [] [])
     = [gorm.CallCreateInBatches (getDb blankDb (fun c => c) []) [tt; tt] 5].
Proof.
  assert (Hne : [tt; tt] <> []) by discriminate.
  split; [exact Hne |]. split.
  - destruct (InsertBatchSize_default unit unit threeRows blankDb (fun c => c)
                [tt; tt] 0 [] [] Hne) as [Hdefault _].
    destruct Hdefault as [_ Hlog]; [lia | exact Hlog].
  - destruct (InsertBatchSize_default unit unit threeRows blankDb (fun c => c)
                [tt; tt] 5 [] [] Hne) as [_ Hgiven].
    destruct Hgiven as [_ Hlog]; [lia | exact Hlog].
Defined.

(** [SelectPage] on [groupedQuery]: the data query carries both groups
    twice. *)
Lemma buildCondition_appends_groups_again_witness :
  (0 < String.length (QueryBuilder groupedQuery))%nat
  /\ (0 < String.length (AndBracketBuilder groupedQuery))%nat
  /\ exists countDb dataDb,
      snd (SelectPage unit unit threeRows blankDb (fun c => c)
             (NewPage 2 10) (Some groupedQuery) [] [])
      = [gorm.CallCount countDb; gorm.CallFind dataDb]
      /\ gorm.Wheres (gorm.Stmt countDb)
         = [gorm.Expr "status = ? AND (city = ? AND zip = ? ) OR (vip = ? ) "
              [gorm.VInt 1; gorm.VStr "NY"; gorm.VStr "10001"; gorm.VBool true]]
      /\ gorm.Wheres (gorm.Stmt dataDb)
         = [gorm.Expr
              "status = ? AND (city = ? AND zip = ? ) OR (vip = ? ) AND (city = ? AND zip = ? ) OR (vip = ? ) "
              [gorm.VInt 1; gorm.VStr "NY"; gorm.VStr "10001"; gorm.VBool true;
               gorm.VStr "NY"; gorm.VStr "10001"; gorm.VBool true]].
Proof.
  assert (Hroot : (0 < String.length (QueryBuilder groupedQuery))%nat)
    by (simpl; lia).
  assert (Hand : (0 < String.length (AndBracketBuilder groupedQuery))%nat)
    by (simpl; lia).
  split; [exact Hroot |]. split; [exact Hand |].
  destruct (buildCondition_appends_groups_again unit unit threeRows blankDb
              (fun c => c) groupedQuery [] (NewPage 2 10) Hroot (or_introl Hand))
    as (_ & q1 & _ & _ & _ & _ & _ & _ & _ & _ & _ & Hpage).
  destruct (Hpage eq_refl) as (countDb & dataDb & Hlog & Hcount & Hdata).
  exists countDb, dataDb.
  split; [exact Hlog |]. split; [exact Hcount | exact Hdata].
Defined.

(** Two compilations of [groupedQuery] leave both groups twice. *)
Lemma compileTimes_repeats_groups_witness :
  (0 < String.length (QueryBuilder groupedQuery))%nat
  /\ exists qn : Query,
       compileTimes blankDb (fun c => c) 2 (Some groupedQuery) [] = Some qn
       /\ QueryBuilder qn
          = "status = ? AND (city = ? AND zip = ? ) OR (vip = ? ) AND (city = ? AND zip = ? ) OR (vip = ? ) "
       /\ length (QueryArgs qn) = 7%nat.
Proof.
  assert (H : (0 < String.length (QueryBuilder groupedQuery))%nat)
    by (simpl; lia).
  split; [exact H |].
  destruct (compileTimes_repeats_groups blankDb (fun c => c) 2 groupedQuery [] H)
    as (qn & Hk & Ht & Ha & _).
  exists qn. split; [exact Hk |].
  split; [rewrite Ht | rewrite Ha]; reflexivity.
Defined.

(** The builder that compiling [groupedQuery] gives back pairs its four
    placeholders with four arguments. *)
Lemma buildCondition_keeps_pairing_witness :
  gorm.placeholders (QueryBuilder groupedQuery) = length (QueryArgs groupedQuery)
  /\ fst (buildCondition blankDb (fun c => c) (Some groupedQuery) [])
     = Some (compiledQuery groupedQuery)
  /\ gorm.placeholders (QueryBuilder (compiledQuery groupedQuery)) = 4%nat
  /\ length (QueryArgs (compiledQuery groupedQuery)) = 4%nat.
Proof.
  assert (H1 : gorm.placeholders (QueryBuilder groupedQuery)
               = length (QueryArgs groupedQuery)) by reflexivity.
  assert (H5 : fst (buildCondition blankDb (fun c => c) (Some groupedQuery) [])
               = Some (compiledQuery groupedQuery)) by reflexivity.
  split; [exact H1 |]. split; [exact H5 |].
  destruct (buildCondition_keeps_pairing blankDb (fun c => c) groupedQuery
              (compiledQuery groupedQuery) [] H1 eq_refl eq_refl eq_refl H5)
    as (Hroot & _).
  split; [reflexivity |]. rewrite <- Hroot. reflexivity.
Defined.


(** A fresh descriptor after a refused connection. *)
Lemma SelectPage_fresh_descriptor_failed_count_witness :
  snd (gorm.run_count countFails
         (snd (buildCondition blankDb (fun c => c) (Some groupedQuery) [])))
    = Some (gorm.ErrDriver "connection refused")
  /\ Records (fst (fst (fst (SelectPage unit unit countFails blankDb (fun c => c)
                               (NewPage 2 10) (Some groupedQuery) [] [])))) = []
  /\ Total (fst (fst (fst (SelectPage unit unit countFails blankDb (fun c => c)
                             (NewPage 2 10) (Some groupedQuery) [] [])))) = 0.
Proof.
  assert (Hcount : snd (gorm.run_count countFails
            (snd (buildCondition blankDb (fun c => c) (Some groupedQuery) [])))
            = Some (gorm.ErrDriver "connection refused")) by reflexivity.
  split; [exact Hcount |].
  pose proof (SelectPage_fresh_descriptor_failed_count unit unit countFails blankDb
                (fun c => c) true 2 10 (Some groupedQuery) [] []
                (gorm.ErrDriver "connection refused") Hcount) as H.
  destruct (SelectPage unit unit countFails blankDb (fun c => c)
              (NewPage 2 10) (Some groupedQuery) [] []) as [[[page1 db1] q1] log1].
  destruct (SelectPageModel unit unit countFails blankDb (fun c => c)
              (NewPage 2 10) (Some groupedQuery) [] []) as [[[page2 db2] q2] log2].
  destruct (SelectPageMaps unit unit countFails blankDb (fun c => c) true
              (NewPage 2 10) (Some groupedQuery) [] []) as [[[page3 db3] q3] log3].
  destruct H as ((Hr & Ht & _) & _).
  split; [exact Hr | exact Ht].
Defined.

(** With the identity as resolver the map of [mappedQuery] keeps its two
    entries. *)
Lemma resolveConditionMap_injective_witness :
  (forall k1 k2 : string, (fun c : string => c) k1 = (fun c : string => c) k2 -> k1 = k2)
  /\ size (resolveConditionMap (fun c => c) (ConditionMap mappedQuery)) = 2%nat
  /\ resolveConditionMap (fun c => c) (ConditionMap mappedQuery) !! "Age"
     = Some (gorm.VInt 30).
Proof.
  assert (Hinj : forall k1 k2 : string,
             (fun c : string => c) k1 = (fun c : string => c) k2 -> k1 = k2)
    by (intros k1 k2 H; exact H).
  split; [exact Hinj |].
  destruct (resolveConditionMap_injective (fun c => c) (ConditionMap mappedQuery) Hinj)
    as [Hlookup Hsize].
  split.
  - rewrite Hsize. reflexivity.
  - rewrite (Hlookup "Age"). reflexivity.
Defined.

(** Page 2 of size 10 ends where page 3 starts. *)
Lemma paginate_pages_contiguous_witness :
  let p := @NewPage unit 2 10 in
  1 <= Current p
  /\ 1 <= Size p
  /\ gorm.is_int (Current p * Size p)
  /\ gorm.Offset_ (gorm.Stmt (Scopes (paginate p) blankDb)) = Some 10
  /\ gorm.Offset_ (gorm.Stmt (Scopes (paginate (set_Current (Current p + 1) p)) blankDb))
     = Some 20.
Proof.
  intros p.
  assert (Hc : 1 <= Current p) by (simpl; lia).
  assert (Hs : 1 <= Size p) by (simpl; lia).
  assert (Hfit : gorm.is_int (Current p * Size p))
    by (apply is_int_bounds; simpl; lia).
  repeat (split; [assumption |]).
  destruct (paginate_pages_contiguous p blankDb Hc Hs Hfit)
    as (offset & limit & Ho & Hl & Hnext & _).
  assert (Eo : offset = 10) by (inversion Ho; reflexivity).
  assert (El : limit = 10) by (inversion Hl; reflexivity).
  split; [reflexivity |]. rewrite Hnext, Eo, El. reflexivity.
Defined.

(** Page 3 of size 25: offset 50, limit 25. *)
Lemma paginate_window_bounds_witness :
  let p := @NewPage unit 3 25 in
  gorm.is_int (Current p)
  /\ gorm.is_int (Size p)
  /\ exists offset limit : Z,
       gorm.Offset_ (gorm.Stmt (Scopes (paginate p) blankDb)) = Some offset
       /\ gorm.Limit_ (gorm.Stmt (Scopes (paginate p) blankDb)) = Some limit
       /\ 1 <= limit /\ 0 <= offset /\ offset mod limit = 0.
Proof.
  intros p.
  assert (Hc : gorm.is_int (Current p)) by (apply is_int_bounds; simpl; lia).
  assert (Hs : gorm.is_int (Size p)) by (apply is_int_bounds; simpl; lia).
  split; [exact Hc |]. split; [exact Hs |].
  destruct (paginate_window_bounds p blankDb Hc Hs)
    as (offset & limit & Ho & Hl & Hlim & _ & Hfit).
  exists offset, limit.
  split; [exact Ho |]. split; [exact Hl |]. split; [exact Hlim |].
  apply Hfit. apply is_int_bounds. simpl. lia.
Defined.

(** [SelectOne] over the numbered table returns 7, the first of three
    rows. *)
Lemma SelectOne_outcomes_witness :
  gorm.run_find numberedRows
    (gorm.first_only (snd (buildCondition blankDb (fun c => c) (Some groupedQuery) [])))
    = ([7; 8; 9], None)
  /\ let '(entity, db, _, _) :=
       SelectOne Z unit 0 numberedRows blankDb (fun c => c) (Some groupedQuery) [] [] in
     entity = 7 /\ gorm.Error db = None /\ gorm.RowsAffected db = 1.
Proof.
  assert (Hrun : gorm.run_find numberedRows
            (gorm.first_only (snd (buildCondition blankDb (fun c => c)
                                     (Some groupedQuery) [])))
            = ([7; 8; 9], None)) by reflexivity.
  split; [exact Hrun |].
  pose proof (SelectOne_outcomes Z unit 0 numberedRows blankDb (fun c => c)
                (Some groupedQuery) [] []) as H.
  cbv zeta in H.
  destruct (SelectOne Z unit 0 numberedRows blankDb (fun c => c)
              (Some groupedQuery) [] []) as [[[entity db] q1] log1].
  destruct H as (_ & Hfound & _).
  exact (Hfound 7 [8; 9] Hrun).
Defined.

(** [groupedQuery] and [rootOnlyQuery] lead to the same delete. *)
Lemma Delete_Update_read_root_only_witness :
  QueryBuilder groupedQuery = QueryBuilder rootOnlyQuery
  /\ QueryArgs groupedQuery = QueryArgs rootOnlyQuery
  /\ Delete unit blankDb (fun c => c) threeAffected (Some groupedQuery) [] []
     = Delete unit blankDb (fun c => c) threeAffected (Some rootOnlyQuery) [] [].
Proof.
  assert (Ht : QueryBuilder groupedQuery = QueryBuilder rootOnlyQuery) by reflexivity.
  assert (Ha : QueryArgs groupedQuery = QueryArgs rootOnlyQuery) by reflexivity.
  split; [exact Ht |]. split; [exact Ha |].
  destruct (Delete_Update_read_root_only unit blankDb (fun c => c) threeAffected
              groupedQuery rootOnlyQuery [] [] Ht Ha) as [Hdelete _].
  exact Hdelete.
Defined.

(** [Delete] on [groupedQuery] before and after a [SelectList]. *)
Lemma Delete_after_SelectList_witness :
  (0 < String.length (QueryBuilder groupedQuery))%nat
  /\ let '(_, _, q1, _) :=
       SelectList unit unit threeRows blankDb (fun c => c) (Some groupedQuery) [] [] in
     (exists d r,
         Delete unit blankDb (fun c => c) threeAffected (Some groupedQuery) [] []
         = Some (r, [gorm.MutDelete d])
         /\ gorm.Wheres (gorm.Stmt d) = [gorm.Expr "status = ? " [gorm.VInt 1]])
     /\ (exists d r,
         Delete unit blankDb (fun c => c) threeAffected q1 [] []
         = Some (r, [gorm.MutDelete d])
         /\ gorm.Wheres (gorm.Stmt d)
            = [gorm.Expr "status = ? AND (city = ? AND zip = ? ) OR (vip = ? ) "
                 [gorm.VInt 1; gorm.VStr "NY"; gorm.VStr "10001"; gorm.VBool true]]).
Proof.
  assert (Hroot : (0 < String.length (QueryBuilder groupedQuery))%nat)
    by (simpl; lia).
  split; [exact Hroot |].
  pose proof (Delete_after_SelectList unit unit threeRows blankDb (fun c => c)
                threeAffected groupedQuery [] [] [] Hroot) as H.
  destruct (SelectList unit unit threeRows blankDb (fun c => c)
              (Some groupedQuery) [] []) as [[[rows db] q1] log1].
  destruct H as ((d0 & r0 & Hd0 & Hw0) & (d1 & r1 & Hd1 & Hw1)).
  split.
  - exists d0, r0. split; [exact Hd0 | rewrite Hw0; reflexivity].
  - exists d1, r1. split; [exact Hd1 | rewrite Hw1; reflexivity].
Defined.

(** [DeleteById] on a type without a marked field deletes by [id]. *)
Lemma DeleteById_named_column_witness :
  "id" <> EmptyString
  /\ getPkColumnName "id" lowerNaming [plainField] <> EmptyString
  /\ exists d r,
       DeleteById unit blankDb (fun c => c) "id" lowerNaming threeAffected
         [plainField] (gorm.VInt 5) [] []
       = (r, [gorm.MutDelete d])
       /\ gorm.Wheres (gorm.Stmt d) = [gorm.Expr "id" [gorm.VInt 5]].
Proof.
  assert (Hdef : "id" <> EmptyString) by discriminate.
  split; [exact Hdef |].
  destruct (DeleteById_named_column unit blankDb (fun c => c) "id" lowerNaming
              threeAffected [plainField] (gorm.VInt 5) [] [] Hdef)
    as (Hpk & d & r & column & Hrun & Hw & Hcol & _).
  split; [exact Hpk |].
  exists d, r. split; [exact Hrun |].
  rewrite Hw, Hcol. reflexivity.
Defined.

(** [Delete] on [rootOnlyQuery] hands the root predicate; on the empty
    builder it hands no condition. *)
Lemma write_operations_dispatch_witness :
  QueryBuilder rootOnlyQuery <> EmptyString
  /\ QueryBuilder emptyQuery = EmptyString
  /\ QueryArgs emptyQuery = []
  /\ (exists d r,
        Delete unit blankDb (fun c => c) threeAffected (Some rootOnlyQuery) [] []
        = Some (r, [gorm.MutDelete d])
        /\ gorm.Wheres (gorm.Stmt d) = [gorm.Expr "status = ? " [gorm.VInt 1]])
  /\ (exists d r,
        Delete unit blankDb (fun c => c) threeAffected (Some emptyQuery) [] []
        = Some (r, [gorm.MutDelete d])
        /\ gorm.Wheres (gorm.Stmt d) = []).
Proof.
  assert (Hne : QueryBuilder rootOnlyQuery <> EmptyString) by discriminate.
  assert (Ht : QueryBuilder emptyQuery = EmptyString) by reflexivity.
  assert (Ha : QueryArgs emptyQuery = []) by reflexivity.
  split; [exact Hne |]. split; [exact Ht |]. split; [exact Ha |].
  split.
  - destruct (write_operations_dispatch unit blankDb (fun c => c) "id" lowerNaming
                threeAffected tt [] gorm.VNull rootOnlyQuery [] [])
      as (_ & _ & _ & (d & r & Hrun & (Hlog & _) & Hroot & _) & _).
    exists d, (fst r). split.
    + rewrite Hrun. destruct r as [r1 r2]. simpl in Hlog. now rewrite Hlog.
    + rewrite (Hroot Hne). reflexivity.
  - destruct (write_operations_dispatch unit blankDb (fun c => c) "id" lowerNaming
                threeAffected tt [] gorm.VNull emptyQuery [] [])
      as (_ & _ & _ & (d & r & Hrun & (Hlog & _) & _ & Hempty) & _).
    exists d, (fst r). split.
    + rewrite Hrun. destruct r as [r1 r2]. simpl in Hlog. now rewrite Hlog.
    + rewrite (Hempty Ht Ha). reflexivity.
Defined.

End gplus.
